(** * aethersync_edgar_ingest: a shallow embedding of the daily EDGAR index
    ingester (src/aethersync_edgar_ingest.py) and proofs of its contract. *)

From Stdlib Require Import String Ascii List Bool Arith ZArith Lia.
Import ListNotations.
Open Scope string_scope.
Open Scope nat_scope.

(* ------------------------------------------------------------------ *)
(** ** Python string primitives used by the module *)

Module PyStr.

(** The characters of the model's strings are the code points U+0000 to
    U+00FF (an [ascii] read as its code). *)

(** [str.isspace] on these characters, the test of [str.strip]:
    \t \n \v \f \r, the separators \x1c-\x1f, the space, NEL (\x85)
    and NO-BREAK SPACE (\xa0). *)
Definition is_space (c : ascii) : bool :=
  let n := nat_of_ascii c in
  ((9 <=? n) && (n <=? 13)) || ((28 <=? n) && (n <=? 31)) || (n =? 32)
  || (n =? 133) || (n =? 160).

Fixpoint lstrip (s : string) : string :=
  match s with
  | EmptyString => EmptyString
  | String c s' => if is_space c then lstrip s' else s
  end.

Definition rstrip (s : string) : string :=
  string_of_list_ascii
    (rev (list_ascii_of_string (lstrip
      (string_of_list_ascii (rev (list_ascii_of_string s)))))).

(** [s.strip()] *)
Definition strip (s : string) : string := rstrip (lstrip s).

(** [c in s] for a one-character needle. *)
Fixpoint contains (c : ascii) (s : string) : bool :=
  match s with
  | EmptyString => false
  | String d s' => Ascii.eqb c d || contains c s'
  end.

(** [s.split(sep)] for a one-character separator: never empty. *)
Fixpoint split (sep : ascii) (s : string) : list string :=
  match s with
  | EmptyString => [EmptyString]
  | String c s' =>
      let rest := split sep s' in
      if Ascii.eqb c sep then EmptyString :: rest
      else match rest with
           | r :: rs => String c r :: rs
           | [] => [String c EmptyString]
           end
  end.

(** [l[-1]] on a list that is never empty here. *)
Definition last_item (l : list string) : string := last l EmptyString.

Fixpoint replace_fuel (old new : string) (fuel : nat) (s : string) : string :=
  match fuel with
  | O => s
  | S f =>
      match s with
      | EmptyString => EmptyString
      | String c s' =>
          if String.prefix old s
          then new ++ replace_fuel old new f
                 (substring (String.length old) (String.length s) s)
          else String c (replace_fuel old new f s')
      end
  end.

Fixpoint interleave (new s : string) : string :=
  match s with
  | EmptyString => new
  | String c s' => new ++ String c (interleave new s')
  end.

(** [s.replace(old, new)]: every non-overlapping occurrence, left to
    right; an empty [old] inserts [new] around every character. *)
Definition replace (old new s : string) : string :=
  match old with
  | EmptyString => interleave new s
  | _ => replace_fuel old new (String.length s) s
  end.

(** [str(n)] for a non-negative integer. *)
Definition digit (n : nat) : ascii := ascii_of_nat (48 + n).

Fixpoint str_nat_fuel (fuel n : nat) : string :=
  match fuel with
  | O => EmptyString
  | S f =>
      if n <? 10 then String (digit n) EmptyString
      else str_nat_fuel f (n / 10) ++ String (digit (n mod 10)) EmptyString
  end.

Definition str_nat (n : nat) : string := str_nat_fuel (S n) n.

(** [str(z)] for any integer. *)
Definition str_Z (z : Z) : string :=
  if (z <? 0)%Z then "-" ++ str_nat (Z.to_nat (- z)) else str_nat (Z.to_nat z).

(** Zero padding to a field width, as [strftime] does for [%Y %m %d]. *)
Fixpoint zeros (k : nat) : string :=
  match k with
  | O => EmptyString
  | S k' => String "0" (zeros k')
  end.

Definition zpad (width : nat) (s : string) : string :=
  zeros (width - String.length s) ++ s.

(** Lower-case hexadecimal digits. *)
Definition hex_digit (n : nat) : ascii :=
  if n <? 10 then ascii_of_nat (48 + n) else ascii_of_nat (87 + n).

Fixpoint hex_fuel (fuel : nat) (z : Z) : string :=
  match fuel with
  | O => EmptyString
  | S f =>
      if (z <? 16)%Z then String (hex_digit (Z.to_nat z)) EmptyString
      else hex_fuel f (z / 16) ++ String (hex_digit (Z.to_nat (z mod 16))) EmptyString
  end.

(** [hex(z)] *)
Definition hex (z : Z) : string :=
  let digits (a : Z) := hex_fuel (S (Z.to_nat (Z.log2 a))) a in
  if (z <? 0)%Z then "-0x" ++ digits (- z)%Z else "0x" ++ digits z.

Definition SQUOTE : ascii := "'"%char.
Definition DQUOTE : ascii := ascii_of_nat 34.
Definition BACKSLASH : ascii := "\"%char.

(** The quote [repr] chooses: a double quote when the text holds a
    single quote and no double quote. *)
Definition repr_quote (s : string) : ascii :=
  if contains SQUOTE s && negb (contains DQUOTE s) then DQUOTE else SQUOTE.

(** One character of a [repr], with quote [q]; [printable] tells the
    characters copied as they are. *)
Definition repr_char (q : ascii) (printable : ascii -> bool) (c : ascii) : string :=
  let n := nat_of_ascii c in
  if Ascii.eqb c q || Ascii.eqb c BACKSLASH then String BACKSLASH (String c EmptyString)
  else if n =? 9 then "\t"
  else if n =? 10 then "\n"
  else if n =? 13 then "\r"
  else if printable c then String c EmptyString
  else String BACKSLASH (String "x" (String (hex_digit (n / 16))
                                      (String (hex_digit (n mod 16)) EmptyString))).

Fixpoint repr_body (q : ascii) (printable : ascii -> bool) (s : string) : string :=
  match s with
  | EmptyString => EmptyString
  | String c s' => repr_char q printable c ++ repr_body q printable s'
  end.

(** [str.isprintable] on U+0000 to U+00FF: not the controls, not
    NO-BREAK SPACE, not SOFT HYPHEN. *)
Definition str_printable (c : ascii) : bool :=
  let n := nat_of_ascii c in
  ((32 <=? n) && (n <? 127)) || ((161 <=? n) && negb (n =? 173)).

Definition byte_printable (c : ascii) : bool :=
  let n := nat_of_ascii c in (32 <=? n) && (n <? 127).

(** [repr(s)] of a [str]. *)
Definition str_repr (s : string) : string :=
  let q := repr_quote s in
  String q (repr_body q str_printable s ++ String q EmptyString).

(** [repr(b)] of a [bytes], one character per byte. *)
Definition bytes_repr (b : string) : string :=
  let q := repr_quote b in
  String "b" (String q (repr_body q byte_printable b ++ String q EmptyString)).

End PyStr.

(* ------------------------------------------------------------------ *)
(** ** Configuration constants *)

Definition BASE_URL : string := "https://www.sec.gov/Archives/edgar/daily-index".
Definition ARCHIVES_ROOT : string := "https://www.sec.gov/Archives/".
Definition TARGET_FORMS : list string := ["10-K"; "10-Q"; "13F"; "13D"; "4"].

Definition in_target_forms (form : string) : bool :=
  existsb (String.eqb form) TARGET_FORMS.

(* ------------------------------------------------------------------ *)
(** ** Filing records (the Python dicts built by [parse_idx]) *)

(** The dict keys [ingested_at] and [raw_text] are absent until
    [insert_unique] sets them; absence is [None]. *)
Record filing := mkFiling {
  cik : string;
  company : string;
  form_type : string;
  date_filed : string;
  accession : string;
  file_url : string;
  ingested_at : option Z;
  raw_text : option string
}.

Definition set_ingested_at (t : Z) (f : filing) : filing :=
  mkFiling f.(cik) f.(company) f.(form_type) f.(date_filed) f.(accession)
           f.(file_url) (Some t) f.(raw_text).

Definition set_raw_text (s : string) (f : filing) : filing :=
  mkFiling f.(cik) f.(company) f.(form_type) f.(date_filed) f.(accession)
           f.(file_url) f.(ingested_at) (Some s).

(* ------------------------------------------------------------------ *)
(** ** [parse_idx] *)

Definition PIPE : ascii := "|"%char.
Definition SLASH : ascii := "/"%char.

(** The body of the [for line in f] loop: the record appended for one
    line, if any. *)
Definition parse_line (line : string) : option filing :=
  if PyStr.contains PIPE line then
    let parts := map PyStr.strip (PyStr.split PIPE (PyStr.strip line)) in
    match parts with
    | [cik0; company0; form; date_filed0; filename] =>
        if in_target_forms form then
          let accession0 :=
            PyStr.replace ".txt" "" (PyStr.last_item (PyStr.split SLASH filename)) in
          Some (mkFiling cik0 company0 form date_filed0 accession0
                         (ARCHIVES_ROOT ++ filename) None None)
        else None
    | _ => None
    end
  else None.

(** [parse_idx] over the lines of the decoded index file, in order. *)
Fixpoint parse_lines (lines : list string) : list filing :=
  match lines with
  | [] => []
  | line :: rest =>
      match parse_line line with
      | Some f => f :: parse_lines rest
      | None => parse_lines rest
      end
  end.

(* ------------------------------------------------------------------ *)
(** ** [get_today_idx_url] *)

Record date := mkDate { year : nat; month : nat; day : nat }.

(** [today.strftime('%Y%m%d')] *)
Definition strftime_Ymd (d : date) : string :=
  PyStr.zpad 4 (PyStr.str_nat d.(year)) ++ PyStr.zpad 2 (PyStr.str_nat d.(month))
  ++ PyStr.zpad 2 (PyStr.str_nat d.(day)).

Definition get_today_idx_url (today : date) : string * string :=
  let quarter := "QTR" ++ PyStr.str_nat ((today.(month) - 1) / 3 + 1) in
  let filename := "master." ++ strftime_Ymd today ++ ".idx.gz" in
  let url := BASE_URL ++ "/" ++ PyStr.str_nat today.(year) ++ "/" ++ quarter
             ++ "/" ++ filename in
  (url, filename).

Example parse_scenario :
  parse_lines ["0001|Acme Co|10-K|2024-01-05|edgar/data/1/acme-10k.txt
";
               "0002|Beta Inc|8-K|2024-01-05|edgar/data/2/beta-8k.txt
"]
  = [mkFiling "0001" "Acme Co" "10-K" "2024-01-05" "acme-10k"
       "https://www.sec.gov/Archives/edgar/data/1/acme-10k.txt" None None].
Proof. vm_compute. reflexivity. Qed.

Example url_example :
  get_today_idx_url (mkDate 2024 5 7) =
  ("https://www.sec.gov/Archives/edgar/daily-index/2024/QTR2/master.20240507.idx.gz",
   "master.20240507.idx.gz").
Proof. vm_compute. reflexivity. Qed.

(* ------------------------------------------------------------------ *)
(** ** The outside world: HTTP, files, clock, MongoDB, the log file *)

(** How reading a gzip stream can fail, with the exception the [gzip]
    module raises for it:
    - [GzNotGzip magic]: the first bytes of a member are not \x1f\x8b,
      [BadGzipFile("Not a gzipped file (%r)" % magic)];
    - [GzBadMethod]: [BadGzipFile("Unknown compression method")];
    - [GzTruncated]: the data ends inside a member, [EOFError];
    - [GzBadCrc stored computed]: [BadGzipFile("CRC check failed ...")];
    - [GzBadLength]: [BadGzipFile("Incorrect length of data produced")];
    - [GzInflate msg]: the deflate data is invalid, [zlib.error(msg)]. *)
Inductive gz_error :=
| GzNotGzip (magic : string)
| GzBadMethod
| GzTruncated
| GzBadCrc (stored computed : Z)
| GzBadLength
| GzInflate (msg : string).

(** Exceptions raised by the pipeline stages.  Every one of them is a
    subclass of Python's [Exception]: the [Exception] raised by
    [download_gz], [requests.RequestException], the [gzip] errors above,
    [FileNotFoundError], [pymongo.errors.PyMongoError]. *)
Inductive py_exc :=
| ExcDownload (status : Z)
| ExcRequest (msg : string)
| ExcGzip (g : gz_error)
| ExcOS (path : string)
| ExcStore (msg : string).

Definition gz_error_str (g : gz_error) : string :=
  match g with
  | GzNotGzip magic => "Not a gzipped file (" ++ PyStr.bytes_repr magic ++ ")"
  | GzBadMethod => "Unknown compression method"
  | GzTruncated => "Compressed file ended before the end-of-stream marker was reached"
  | GzBadCrc stored computed =>
      "CRC check failed " ++ PyStr.hex stored ++ " != " ++ PyStr.hex computed
  | GzBadLength => "Incorrect length of data produced"
  | GzInflate msg => msg
  end.

(** [str(e)] *)
Definition exc_str (e : py_exc) : string :=
  match e with
  | ExcDownload s => "Download failed with status " ++ PyStr.str_Z s
  | ExcRequest m => m
  | ExcGzip g => gz_error_str g
  | ExcOS p => "[Errno 2] No such file or directory: " ++ PyStr.str_repr p
  | ExcStore m => m
  end.

(** Answer of [requests.get] for a filing text: a transport exception, or
    a response with its status code and decoded [r.text]. *)
Inductive http_resp :=
| HttpRaise (msg : string)
| HttpResp (status : Z) (text : string).

(** The content of a gzip file as [gzip.open(path, 'rb')] delivers it to
    [shutil.copyfileobj]: either a well-formed stream (one or more
    members, or no byte at all) whose decoded text has the given lines
    (each as [for line in f] yields it), or a stream on which decoding
    fails with [err] once [copyfileobj] has written out the decoded lines
    [written] (the part decoded before the failure, possibly nothing). *)
Inductive gz_payload :=
| GzMember (lines : list string)
| GzBroken (written : list string) (err : gz_error).

(** Answer of [requests.get(url, stream=True)] for the index archive: a
    transport exception; a response whose body arrives in full; or a
    response whose body stream ([r.iter_content]) breaks with [msg] once
    the bytes making up [received] have arrived. *)
Inductive archive_resp :=
| ArchRaise (msg : string)
| ArchResp (status : Z) (body : gz_payload)
| ArchCut (status : Z) (received : gz_payload) (msg : string).

(** A local file: an archive as written by [download_gz]; a text file as
    [open(path, "r", errors="ignore")] reads it, line by line; or the text
    the logging handler wrote, character by character. *)
Inductive file_data :=
| FileGz (p : gz_payload)
| FileText (lines : list string)
| FileLog (text : string).

Inductive level := INFO | WARNING | ERROR.

Definition level_name (l : level) : string :=
  match l with
  | INFO => "INFO"
  | WARNING => "WARNING"
  | ERROR => "ERROR"
  end.

(** Observable effects, in the order they happen. *)
Inductive event :=
| EvLog (lvl : level) (msg : string)
| EvGet (url : string)
| EvWrite (path : string)
| EvOpen (path : string)
| EvFind (acc : string)
| EvNow
| EvInsert (doc : filing)
| EvTmpCreate (dir : string)
| EvTmpCleanup (dir : string).

(** The answers the outside world gives.  The [nat] argument of the
    HTTP, clock and MongoDB answers is the index of the external call,
    so any sequence of answers is covered; the time stamp ([asctime]) and
    the traceback text of a log record are indexed by the number of
    effects before the record, distinct for every record. *)
Record env := mkEnv {
  e_today : date;
  e_tmpdir : string;
  e_archive : nat -> string -> archive_resp;
  e_fetch : nat -> string -> http_resp;
  e_clock : nat -> Z;
  e_store_up : nat -> bool;
  e_store_err : nat -> string;
  e_asctime : nat -> string;
  e_traceback : nat -> string
}.

(** Local files, the MongoDB collection (documents in insertion order),
    the external-call counter and the trace of effects. *)
Record world := mkWorld {
  w_fs : list (string * file_data);
  w_store : list filing;
  w_tick : nat;
  w_trace : list event
}.

Inductive result (A : Type) :=
| Ok (a : A)
| Err (e : py_exc).
Arguments Ok {A} a.
Arguments Err {A} e.

(** A state and exception monad over the world. *)
Definition M (A : Type) : Type := env -> world -> result A * world.

Definition ret {A} (a : A) : M A := fun _ w => (Ok a, w).

Definition bind {A B} (m : M A) (k : A -> M B) : M B :=
  fun e w =>
    match m e w with
    | (Ok a, w') => k a e w'
    | (Err x, w') => (Err x, w')
    end.

Notation "x <- m ;; k" := (bind m (fun x => k))
  (at level 61, m at next level, right associativity).
Notation "m ;;; k" := (bind m (fun _ => k))
  (at level 61, right associativity).

Definition raise {A} (x : py_exc) : M A := fun _ w => (Err x, w).

(** [try: m except Exception as e: h(e)] *)
Definition catch {A} (m : M A) (h : py_exc -> M A) : M A :=
  fun e w =>
    match m e w with
    | (Ok a, w') => (Ok a, w')
    | (Err x, w') => h x e w'
    end.

Definition ask : M env := fun e w => (Ok e, w).

Definition emit (ev : event) : M unit :=
  fun _ w => (Ok tt, mkWorld w.(w_fs) w.(w_store) w.(w_tick) (w.(w_trace) ++ [ev])).

Definition next_tick : M nat :=
  fun _ w => (Ok w.(w_tick), mkWorld w.(w_fs) w.(w_store) (S w.(w_tick)) w.(w_trace)).

Fixpoint fs_lookup (p : string) (fs : list (string * file_data)) : option file_data :=
  match fs with
  | [] => None
  | (q, d) :: rest => if String.eqb p q then Some d else fs_lookup p rest
  end.

Definition fs_exists (p : string) (fs : list (string * file_data)) : bool :=
  match fs_lookup p fs with Some _ => true | None => false end.

(** [os.remove(p)] *)
Definition fs_remove (p : string) (fs : list (string * file_data)) : list (string * file_data) :=
  filter (fun e => negb (String.eqb p (fst e))) fs.

(** [os.rename(src, dst)] on POSIX: [dst] is replaced. *)
Definition fs_rename (src dst : string) (fs : list (string * file_data))
  : list (string * file_data) :=
  match fs_lookup src fs with
  | Some d => (dst, d) :: fs_remove dst (fs_remove src fs)
  | None => fs
  end.

(* ------------------------------------------------------------------ *)
(** ** The logger: [RotatingFileHandler(LOG_FILE, maxBytes=5_000_000,
    backupCount=3)] with the format ['%(asctime)s %(levelname)s: %(message)s'] *)

(** The handler's file, named as the module names it (relative to the
    working directory, never inside a fresh temporary directory). *)
Definition LOG_FILE : string := "edgar_ingest.log".
Definition MAX_BYTES : Z := 5000000.
Definition BACKUP_COUNT : nat := 3.

(** ["%s.%d" % (self.baseFilename, i)] *)
Definition log_backup (i : nat) : string := LOG_FILE ++ "." ++ PyStr.str_nat i.

(** Size in bytes of a text in the UTF-8 locale encoding. *)
Fixpoint utf8_size (s : string) : Z :=
  match s with
  | EmptyString => 0%Z
  | String c s' => ((if (nat_of_ascii c <? 128)%nat then 1 else 2) + utf8_size s')%Z
  end.

(** The text of the handler's file; the handler opened (and so created)
    it in append mode when the module was imported. *)
Definition log_text (fs : list (string * file_data)) : string :=
  match fs_lookup LOG_FILE fs with
  | Some (FileLog s) => s
  | _ => EmptyString
  end.

(** [shouldRollover]: [pos] is the size of the file, [msg] the record
    with its newline; an empty file is never rolled over. *)
Definition should_rollover (text msg : string) : bool :=
  let pos := utf8_size text in
  negb (Z.eqb pos 0) && Z.leb MAX_BYTES (pos + Z.of_nat (String.length msg)).

(** One turn of [for i in range(self.backupCount - 1, 0, -1)]. *)
Definition rotate_backup (i : nat) (fs : list (string * file_data)) : list (string * file_data) :=
  let sfn := log_backup i in
  let dfn := log_backup (S i) in
  if fs_exists sfn fs
  then fs_rename sfn dfn (if fs_exists dfn fs then fs_remove dfn fs else fs)
  else fs.

Fixpoint rotate_backups (i : nat) (fs : list (string * file_data)) : list (string * file_data) :=
  match i with
  | O => fs
  | S j => rotate_backups j (rotate_backup (S j) fs)
  end.

(** [doRollover]: shift the backups, move the file to [.1], reopen it
    empty. *)
Definition do_rollover (fs : list (string * file_data)) : list (string * file_data) :=
  let fs1 := rotate_backups (BACKUP_COUNT - 1) fs in
  let dfn := log_backup 1 in
  let fs2 := if fs_exists dfn fs1 then fs_remove dfn fs1 else fs1 in
  let fs3 := if fs_exists LOG_FILE fs2 then fs_rename LOG_FILE dfn fs2 else fs2 in
  (LOG_FILE, FileLog EmptyString) :: fs_remove LOG_FILE fs3.

(** [BaseRotatingHandler.emit] for a formatted record: roll over if due,
    then append the record and its newline. *)
Definition handler_emit (record : string) (fs : list (string * file_data))
  : list (string * file_data) :=
  let msg := record ++ String "010"%char EmptyString in
  let fs1 := if should_rollover (log_text fs) msg then do_rollover fs else fs in
  (LOG_FILE, FileLog (log_text fs1 ++ msg)) :: fs_remove LOG_FILE fs1.

Definition ends_with_newline (s : string) : bool :=
  String.eqb (substring (String.length s - 1) 1 s) (String "010"%char EmptyString).

(** [Formatter.format]: the message line, then the traceback text if the
    record carries one. *)
Definition format_record (asctime : string) (lvl : level) (msg exc_text : string) : string :=
  let s := asctime ++ " " ++ level_name lvl ++ ": " ++ msg in
  if String.eqb exc_text EmptyString then s
  else (if ends_with_newline s then s else s ++ String "010"%char EmptyString) ++ exc_text.

(** [logger.<level>(msg)], with [exc_info=True] when [exc_info]. *)
Definition log_record (lvl : level) (msg : string) (exc_info : bool) : M unit :=
  emit (EvLog lvl msg);;;
  fun en w =>
    let i := length w.(w_trace) in
    let exc_text := if exc_info then en.(e_traceback) i else EmptyString in
    (Ok tt, mkWorld (handler_emit (format_record (en.(e_asctime) i) lvl msg exc_text) w.(w_fs))
                    w.(w_store) w.(w_tick) w.(w_trace)).

Definition log (lvl : level) (msg : string) : M unit := log_record lvl msg false.

Arguments handler_emit : simpl never.

(* ------------------------------------------------------------------ *)
(** ** Files, HTTP, clock and MongoDB *)

(** [open(p, "wb")] followed by writes: replaces the file's content. *)
Definition write_file (p : string) (d : file_data) : M unit :=
  emit (EvWrite p);;;
  fun _ w =>
    (Ok tt, mkWorld ((p, d) :: filter (fun e => negb (String.eqb p (fst e))) w.(w_fs))
                    w.(w_store) w.(w_tick) w.(w_trace)).

Definition read_file (p : string) : M file_data :=
  emit (EvOpen p);;;
  fun _ w =>
    match fs_lookup p w.(w_fs) with
    | Some d => (Ok d, w)
    | None => (Err (ExcOS p), w)
    end.

(** [collection.find_one({"accession": acc})]: the first document with
    that accession; a MongoDB document is never an empty dict, so the
    truthiness test of the result is [is_some]. *)
Fixpoint find_acc (acc : string) (store : list filing) : option filing :=
  match store with
  | [] => None
  | d :: rest => if String.eqb d.(accession) acc then Some d else find_acc acc rest
  end.

Definition store_available : M unit :=
  t <- next_tick;;
  en <- ask;;
  if en.(e_store_up) t then ret tt
  else raise (ExcStore (en.(e_store_err) t)).

Definition find_one (acc : string) : M (option filing) :=
  store_available;;;
  emit (EvFind acc);;;
  fun _ w => (Ok (find_acc acc w.(w_store)), w).

Definition insert_one (doc : filing) : M unit :=
  store_available;;;
  emit (EvInsert doc);;;
  fun _ w => (Ok tt, mkWorld w.(w_fs) (w.(w_store) ++ [doc]) w.(w_tick) w.(w_trace)).

(** [datetime.datetime.utcnow()] *)
Definition utcnow : M Z :=
  t <- next_tick;;
  en <- ask;;
  emit EvNow;;;
  ret (en.(e_clock) t).

(** [requests.get(url, headers=HEADERS, timeout=15)] with [r.text]. *)
Definition http_get (url : string) : M (Z * string) :=
  t <- next_tick;;
  en <- ask;;
  emit (EvGet url);;;
  match en.(e_fetch) t url with
  | HttpRaise m => raise (ExcRequest m)
  | HttpResp s txt => ret (s, txt)
  end.

(** [requests.get(url, headers=HEADERS, stream=True)]: the status, the
    archive the body stream delivers, and the error the stream ends in,
    if it breaks. *)
Definition http_get_stream (url : string) : M (Z * (gz_payload * option string)) :=
  t <- next_tick;;
  en <- ask;;
  emit (EvGet url);;;
  match en.(e_archive) t url with
  | ArchRaise m => raise (ExcRequest m)
  | ArchResp s body => ret (s, (body, None))
  | ArchCut s received m => ret (s, (received, Some m))
  end.

(* ------------------------------------------------------------------ *)
(** ** The pipeline stages *)

(** [open(dest_path, "wb")] then one [f.write] per chunk: the file holds
    what has arrived when the loop ends, normally or by the stream's
    exception. *)
Definition download_gz (url dest_path : string) : M unit :=
  log INFO ("Downloading " ++ url);;;
  r <- http_get_stream url;;
  if negb (Z.eqb (fst r) 200) then raise (ExcDownload (fst r))
  else
    write_file dest_path (FileGz (fst (snd r)));;;
    match snd (snd r) with
    | None => ret tt
    | Some m => raise (ExcRequest m)
    end.

(** Bytes of a text in the UTF-8 locale encoding, one character per
    byte. *)
Fixpoint utf8_bytes (s : string) : string :=
  match s with
  | EmptyString => EmptyString
  | String c s' =>
      let n := nat_of_ascii c in
      if n <? 128 then String c (utf8_bytes s')
      else String (ascii_of_nat (192 + n / 64)) (String (ascii_of_nat (128 + n mod 64))
                                                         (utf8_bytes s'))
  end.

(** What reading a file through [gzip.open] hands to [copyfileobj]: the
    decoded lines written out, and the exception that ends the copy. A
    file of text (UTF-8, so never starting with \x1f\x8b) decodes to
    nothing when empty and fails on its first two bytes otherwise. *)
Definition gunzip (d : file_data) : list string * option gz_error :=
  let as_text (t : string) : list string * option gz_error :=
    match utf8_bytes t with
    | EmptyString => ([], None)
    | b => ([], Some (GzNotGzip (substring 0 2 b)))
    end in
  match d with
  | FileGz (GzMember lines) => (lines, None)
  | FileGz (GzBroken written err) => (written, Some err)
  | FileText lines => as_text (String.concat EmptyString lines)
  | FileLog t => as_text t
  end.

(** The content, now, of a file opened earlier (it still exists: the
    module removes no file it has open). *)
Definition opened_content (p : string) : M file_data :=
  fun _ w => (Ok (match fs_lookup p w.(w_fs) with
                  | Some d => d
                  | None => FileText []
                  end), w).

(** [gzip.open(src, 'rb')] opens [src] at once; [open(dest, 'wb')] then
    truncates [dest]; only then does [copyfileobj] read [src] (so, with
    [src = dest], an empty file) and write what it decodes. *)
Definition decompress_gz (src_path dest_path : string) : M unit :=
  _ <- read_file src_path;;
  write_file dest_path (FileText []);;;
  d <- opened_content src_path;;
  write_file dest_path (FileText (fst (gunzip d)));;;
  match snd (gunzip d) with
  | None => ret tt
  | Some g => raise (ExcGzip g)
  end.

(** Python's universal-newline reading of a text: ["\r\n"] and ["\r"]
    become ["\n"], and each line keeps its ["\n"]. *)
Fixpoint text_lines (s : string) : list string :=
  match s with
  | EmptyString => []
  | String c s' =>
      let nl := String "010"%char EmptyString in
      if Ascii.eqb c "013"%char then
        match s' with
        | String d s'' => if Ascii.eqb d "010"%char then nl :: text_lines s''
                          else nl :: text_lines s'
        | EmptyString => [nl]
        end
      else
        match text_lines s' with
        | l :: ls => if Ascii.eqb c "010"%char then String c EmptyString :: l :: ls
                     else String c l :: ls
        | [] => [String c EmptyString]
        end
  end.

(** [open(path, "r", errors="ignore")] then the loop of [parse_lines].
    A gzip file read in text mode is not modelled line by line; [main]
    never parses one. *)
Definition parse_idx (path : string) : M (list filing) :=
  d <- read_file path;;
  match d with
  | FileText lines => ret (parse_lines lines)
  | FileLog t => ret (parse_lines (text_lines t))
  | FileGz _ => ret []
  end.

Definition fetch_filing_text (url : string) : M (option string) :=
  catch
    (r <- http_get url;;
     if Z.eqb (fst r) 200 then ret (Some (snd r))
     else log WARNING ("Failed to fetch filing text: " ++ url);;; ret None)
    (fun e => log ERROR ("Exception fetching " ++ url ++ ": " ++ exc_str e);;; ret None).

(** Python truthiness of [text]: [None] and [""] are false. *)
Definition py_truthy (text : option string) : bool :=
  match text with
  | Some s => negb (String.eqb s "")
  | None => false
  end.

(** [insert_unique(filing)]: the [bool] it returns, with the caller's
    dict as it stands after the call (the function mutates it in place). *)
Definition insert_unique (f : filing) : M (bool * filing) :=
  found <- find_one f.(accession);;
  match found with
  | Some _ => ret (false, f)
  | None =>
      t <- utcnow;;
      let f1 := set_ingested_at t f in
      text <- fetch_filing_text f1.(file_url);;
      match text with
      | Some s =>
          if py_truthy text then
            let f2 := set_raw_text s f1 in
            insert_one f2;;; ret (true, f2)
          else ret (false, f1)
      | None => ret (false, f1)
      end
  end.

(** The [for filing in filings] loop of [main], counting insertions. *)
Fixpoint insert_all (filings : list filing) (new_count : nat) : M nat :=
  match filings with
  | [] => ret new_count
  | f :: rest =>
      r <- insert_unique f;;
      insert_all rest (if fst r then S new_count else new_count)
  end.

Definition os_path_join (dir name : string) : string :=
  if String.eqb (substring (String.length dir - 1) 1 dir) "/" then dir ++ name
  else dir ++ "/" ++ name.

Definition under_dir (dir path : string) : bool :=
  String.prefix (dir ++ "/") path.

(** [with tempfile.TemporaryDirectory() as tmpdir: body]: the directory
    is removed on every exit path, then the outcome of [body] stands. *)
Definition with_tmpdir {A} (body : string -> M A) : M A :=
  fun en w =>
    let dir := en.(e_tmpdir) in
    match emit (EvTmpCreate dir) en w with
    | (_, w1) =>
        match body dir en w1 with
        | (r, w2) =>
            (r, mkWorld (filter (fun e => negb (under_dir dir (fst e))) w2.(w_fs))
                        w2.(w_store) w2.(w_tick) (w2.(w_trace) ++ [EvTmpCleanup dir]))
        end
    end.

(** The body of the [try] in [main]. *)
Definition pipeline : M unit :=
  en <- ask;;
  let '(url, filename) := get_today_idx_url en.(e_today) in
  with_tmpdir (fun tmpdir =>
    let gz_path := os_path_join tmpdir filename in
    let idx_path := PyStr.replace ".gz" "" gz_path in
    download_gz url gz_path;;;
    decompress_gz gz_path idx_path;;;
    filings <- parse_idx idx_path;;
    log INFO ("Parsed " ++ PyStr.str_nat (length filings) ++ " filings");;;
    new_count <- insert_all filings 0;;
    log INFO ("Inserted " ++ PyStr.str_nat new_count ++ " new filings into MongoDB")).

(** [main]: the handler logs with [exc_info=True]. *)
Definition main : M unit :=
  catch pipeline (fun e => log_record ERROR ("Fatal error: " ++ exc_str e) true).

(* ------------------------------------------------------------------ *)
(** ** A concrete day *)

Definition sample_lines : list string :=
  ["Description: Master Index of EDGAR Dissemination Feed";
   "CIK|Company Name|Form Type|Date Filed|File Name";
   "0001|Acme Co|10-K|2024-01-05|edgar/data/1/acme-10k.txt";
   "0002|Beta Inc|8-K|2024-01-05|edgar/data/2/beta-8k.txt";
   "0001|Acme Co|10-K|2024-01-05|edgar/data/1/acme-10k.txt"].

Definition sample_env (archive_status : Z) : env :=
  mkEnv (mkDate 2024 1 5) "/tmp/tmpab12"
        (fun _ _ => ArchResp archive_status (GzMember sample_lines))
        (fun _ _ => HttpResp 200 "<html>10-K</html>")
        (fun t => Z.of_nat t)
        (fun _ => true) (fun _ => "ServerSelectionTimeoutError")
        (fun _ => "2024-01-05 06:00:00,000") (fun _ => "Traceback (most recent call last):").

Definition empty_world : world := mkWorld [] [] 0 [].

Example sample_run_inserts_once :
  map accession (snd (main (sample_env 200) empty_world)).(w_store) = ["acme-10k"].
Proof. vm_compute. reflexivity. Qed.

Example sample_rerun_inserts_nothing :
  let w1 := snd (main (sample_env 200) empty_world) in
  map accession (snd (main (sample_env 200) w1)).(w_store) = ["acme-10k"].
Proof. vm_compute. reflexivity. Qed.

Example sample_404_run :
  fst (main (sample_env 404) empty_world) = Ok tt /\
  (snd (main (sample_env 404) empty_world)).(w_store) = [].
Proof. vm_compute. split; reflexivity. Qed.

Example sample_404_pipeline_raises :
  fst (pipeline (sample_env 404) empty_world) = Err (ExcDownload 404).
Proof. vm_compute. reflexivity. Qed.

(* ------------------------------------------------------------------ *)
(** ** Auxiliary notions for the statements *)

(** What [fetch_filing_text] should hand back for a given answer. *)
Definition fetch_outcome (r : http_resp) : option string :=
  match r with
  | HttpResp s txt => if Z.eqb s 200 then Some txt else None
  | HttpRaise _ => None
  end.

Ltac run :=
  repeat (cbv beta iota zeta delta [bind ret raise catch ask emit next_tick log log_record
            fst snd w_fs w_store w_tick w_trace e_fetch e_clock e_store_up e_store_err
            e_archive e_tmpdir e_today store_available find_one insert_one utcnow
            http_get http_get_stream read_file write_file opened_content] in *;
          cbn [file_url accession set_ingested_at set_raw_text] in *;
          match goal with
          | |- context [match ?x with _ => _ end] =>
              lazymatch x with
              | context [match _ with _ => _ end] => fail
              | _ => first [ match goal with H : x = _ |- _ => rewrite H end
                           | destruct x eqn:? ]
              end
          end).

(* ------------------------------------------------------------------ *)
(** ** C7: the text fetch never raises *)

(** C7: for every URL and every answer of the server, [fetch_filing_text]
    returns normally: the body on status 200, [None] on any other status
    or on a transport exception. *)
Theorem fetch_filing_text_never_raises (url : string) (en : env) (w : world) :
  fst (fetch_filing_text url en w) = Ok (fetch_outcome (en.(e_fetch) w.(w_tick) url)).
Proof.
  unfold fetch_filing_text, http_get, fetch_outcome.
  run; reflexivity.
Qed.

(* ------------------------------------------------------------------ *)
(** ** C10: an empty body counts as a failed fetch *)

(** C10: for a record whose accession is not yet stored, when the text
    fetch answers status 200 with an empty body, [insert_unique] returns
    false and the collection is unchanged (the guard is the truthiness
    of the text). *)
Theorem insert_unique_empty_body_not_inserted (f : filing) (en : env) (w : world)
  (Hup : en.(e_store_up) w.(w_tick) = true)
  (Hnew : find_acc f.(accession) w.(w_store) = None)
  (Hempty : en.(e_fetch) (S (S w.(w_tick))) f.(file_url) = HttpResp 200 "") :
  fst (insert_unique f en w) = Ok (false, set_ingested_at (en.(e_clock) (S w.(w_tick))) f)
  /\ (snd (insert_unique f en w)).(w_store) = w.(w_store).
Proof.
  unfold insert_unique, find_one, store_available, utcnow, fetch_filing_text, http_get.
  run; simpl in *; try congruence; split; reflexivity.
Qed.

Lemma insert_unique_empty_body_not_inserted_witness :
  let f := mkFiling "0001" "Acme Co" "10-K" "2024-01-05" "acme-10k"
             "https://www.sec.gov/Archives/edgar/data/1/acme-10k.txt" None None in
  let en := mkEnv (mkDate 2024 1 5) "/tmp/t" (fun _ _ => ArchResp 200 (GzMember []))
              (fun _ _ => HttpResp 200 "") (fun t => Z.of_nat t) (fun _ => true)
              (fun _ => "") (fun _ => "") (fun _ => "") in
  fst (insert_unique f en empty_world) = Ok (false, set_ingested_at 1 f)
  /\ (snd (insert_unique f en empty_world)).(w_store) = [].
Proof.
  intros f en.
  exact (insert_unique_empty_body_not_inserted f en empty_world eq_refl eq_refl eq_refl).
Defined.

(* ------------------------------------------------------------------ *)
(** ** C2: the three branches of [insert_unique] *)

Definition acme_filing : filing :=
  mkFiling "0001" "Acme Co" "10-K" "2024-01-05" "acme-10k"
           "https://www.sec.gov/Archives/edgar/data/1/acme-10k.txt" None None.

(** A day on which every filing text answers status 200 with no body. *)
Definition empty_body_env : env :=
  mkEnv (mkDate 2024 1 5) "/tmp/t" (fun _ _ => ArchResp 200 (GzMember sample_lines))
        (fun _ _ => HttpResp 200 "") (fun t => Z.of_nat t) (fun _ => true)
        (fun _ => "") (fun _ => "") (fun _ => "").

(** C2, branch (c) as stated, fails: the accession is absent and the text
    fetch succeeds (status 200), yet nothing is inserted and false is
    returned, because the body is empty. *)
Lemma insert_unique_success_branch_counterexample :
  find_acc acme_filing.(accession) empty_world.(w_store) = None
  /\ fetch_outcome (empty_body_env.(e_fetch) 2 acme_filing.(file_url)) = Some ""
  /\ fst (insert_unique acme_filing empty_body_env empty_world)
     = Ok (false, set_ingested_at 1 acme_filing)
  /\ (snd (insert_unique acme_filing empty_body_env empty_world)).(w_store) = [].
Proof. vm_compute. repeat split. Qed.

(** C2 (amended): with the collection reachable, (a) a present accession
    gives false after the lookup alone, no fetch and no write; (b) an
    absent accession whose fetch gives no text or an empty text gives
    false and writes nothing; (c) an absent accession whose fetch gives a
    non-empty text is stamped, given the text, inserted, and true is
    returned. *)
Theorem insert_unique_branches (f : filing) (en : env) (w : world)
  (Hup : en.(e_store_up) w.(w_tick) = true) :
  (find_acc f.(accession) w.(w_store) <> None ->
   insert_unique f en w =
   (Ok (false, f),
    mkWorld w.(w_fs) w.(w_store) (S w.(w_tick)) (w.(w_trace) ++ [EvFind f.(accession)])))
  /\ (find_acc f.(accession) w.(w_store) = None ->
      py_truthy (fetch_outcome (en.(e_fetch) (S (S w.(w_tick))) f.(file_url))) = false ->
      fst (insert_unique f en w) = Ok (false, set_ingested_at (en.(e_clock) (S w.(w_tick))) f)
      /\ (snd (insert_unique f en w)).(w_store) = w.(w_store))
  /\ (forall s, find_acc f.(accession) w.(w_store) = None ->
      fetch_outcome (en.(e_fetch) (S (S w.(w_tick))) f.(file_url)) = Some s ->
      s <> "" ->
      en.(e_store_up) (S (S (S w.(w_tick)))) = true ->
      fst (insert_unique f en w)
      = Ok (true, set_raw_text s (set_ingested_at (en.(e_clock) (S w.(w_tick))) f))
      /\ (snd (insert_unique f en w)).(w_store)
         = (w.(w_store) ++ [set_raw_text s (set_ingested_at (en.(e_clock) (S w.(w_tick))) f)])%list).
Proof.
  destruct en as [today tmp arch fetch clock up serr asct tb], w as [fs store t tr]; cbn in *.
  unfold insert_unique, find_one, store_available, utcnow, fetch_filing_text,
    http_get, insert_one.
  split; [|split].
  - intros Hpres. run; cbn in *; congruence.
  - intros Hnew. unfold fetch_outcome.
    destruct (fetch (S (S t)) (file_url f)) as [m|st txt] eqn:Ef; intros Hfail.
    + run; cbn in *; try congruence. split; reflexivity.
    + destruct (Z.eqb st 200) eqn:Est; cbn in Hfail.
      * run; cbn in *; try congruence; split; reflexivity.
      * run; cbn in *; try congruence; split; reflexivity.
  - intros s Hnew. unfold fetch_outcome.
    destruct (fetch (S (S t)) (file_url f)) as [m|st txt] eqn:Ef; [discriminate|].
    destruct (Z.eqb st 200) eqn:Est; [|discriminate].
    intros Hok Hne Hup3. injection Hok as <-.
    run; cbn in *; try congruence.
    + split; reflexivity.
    + destruct (String.eqb txt "") eqn:Etxt; [|discriminate].
      apply String.eqb_eq in Etxt. contradiction.
Qed.

Lemma insert_unique_branches_witness :
  e_store_up (sample_env 200) (w_tick empty_world) = true
  /\ (find_acc acme_filing.(accession) empty_world.(w_store) = None ->
      py_truthy (fetch_outcome ((sample_env 200).(e_fetch) 2 acme_filing.(file_url))) = false ->
      fst (insert_unique acme_filing (sample_env 200) empty_world)
      = Ok (false, set_ingested_at 1 acme_filing)
      /\ (snd (insert_unique acme_filing (sample_env 200) empty_world)).(w_store) = []).
Proof.
  split; [reflexivity|].
  exact (proj1 (proj2 (insert_unique_branches acme_filing (sample_env 200) empty_world eq_refl))).
Defined.

(* ------------------------------------------------------------------ *)
(** ** C9: the in-place stamp of the caller's record *)

Ltac trace_prefix :=
  repeat rewrite <- app_assoc; cbn [app];
  eexists; reflexivity.

(** C9: for a record whose accession is absent (the collection being
    reachable), [insert_unique] reads the clock before it fetches, the
    caller's record then carries that [ingested_at] whatever the outcome,
    the six parsed fields are untouched, and on the [False] path its
    [raw_text] is untouched too; that path is taken, with the record so
    stamped, whenever the fetch gives no text or an empty one. *)
Theorem insert_unique_stamps_record (f : filing) (en : env) (w : world)
  (Hup : en.(e_store_up) w.(w_tick) = true)
  (Hnew : find_acc f.(accession) w.(w_store) = None) :
  (forall b f', fst (insert_unique f en w) = Ok (b, f') ->
     f'.(ingested_at) = Some (en.(e_clock) (S w.(w_tick)))
     /\ f'.(cik) = f.(cik) /\ f'.(company) = f.(company)
     /\ f'.(form_type) = f.(form_type) /\ f'.(date_filed) = f.(date_filed)
     /\ f'.(accession) = f.(accession) /\ f'.(file_url) = f.(file_url)
     /\ (b = false -> f'.(raw_text) = f.(raw_text)))
  /\ (py_truthy (fetch_outcome (en.(e_fetch) (S (S w.(w_tick))) f.(file_url))) = false ->
      fst (insert_unique f en w) = Ok (false, set_ingested_at (en.(e_clock) (S w.(w_tick))) f))
  /\ (exists rest, (snd (insert_unique f en w)).(w_trace)
                   = (w.(w_trace) ++ [EvFind f.(accession); EvNow; EvGet f.(file_url)] ++ rest)%list).
Proof.
  destruct en as [today tmp arch fetch clock up serr asct tb], w as [fs store t tr]; cbn in *.
  unfold insert_unique, fetch_filing_text, fetch_outcome.
  destruct (fetch (S (S t)) (file_url f)) as [m|st txt] eqn:Ef;
    [|destruct (Z.eqb st 200) eqn:Est; [destruct (String.eqb txt "") eqn:Etxt|]];
    run; cbn in *; try congruence;
    (split; [intros b f' Hr; try discriminate Hr; injection Hr as <- <-; cbn;
             repeat split; try discriminate
            |split; [intros; try reflexivity; try discriminate|trace_prefix]]).
Qed.

Lemma insert_unique_stamps_record_witness :
  e_store_up (sample_env 200) (w_tick empty_world) = true
  /\ find_acc acme_filing.(accession) empty_world.(w_store) = None
  /\ (exists rest, (snd (insert_unique acme_filing (sample_env 200) empty_world)).(w_trace)
        = ([] ++ [EvFind "acme-10k"; EvNow; EvGet acme_filing.(file_url)] ++ rest)%list).
Proof.
  split; [reflexivity|]. split; [reflexivity|].
  exact (proj2 (proj2 (insert_unique_stamps_record acme_filing (sample_env 200)
                         empty_world eq_refl eq_refl))).
Defined.

(* ------------------------------------------------------------------ *)
(** ** C8: [main] always returns normally *)

(** C8: whatever the day, the server answers, the archive content, the
    clock and the availability of the collection, every exception raised
    in the pipeline is caught by [main], which returns normally. *)
Theorem main_returns_normally (en : env) (w : world) :
  fst (main en w) = Ok tt.
Proof.
  unfold main, catch.
  destruct (pipeline en w) as [[[]|x] w'].
  - reflexivity.
  - reflexivity.
Qed.

(* ------------------------------------------------------------------ *)
(** ** The files the logger writes *)

(** The paths the handler writes: its file and the backups [.1] to
    [.3]. *)
Definition is_log_path (p : string) : bool :=
  String.eqb p LOG_FILE
  || existsb (fun i => String.eqb p (log_backup i)) (seq 1 BACKUP_COUNT).

(** The status line of an answer of the archive server, if one came. *)
Definition arch_status (a : archive_resp) : option Z :=
  match a with
  | ArchRaise _ => None
  | ArchResp s _ => Some s
  | ArchCut s _ _ => Some s
  end.

Lemma is_log_path_false q :
  is_log_path q = false ->
  q <> LOG_FILE /\ q <> log_backup 1 /\ q <> log_backup 2 /\ q <> log_backup 3.
Proof.
  unfold is_log_path. cbn [existsb seq BACKUP_COUNT].
  intros H. rewrite !Bool.orb_false_iff in H.
  destruct H as [H0 [H1 [H2 [H3 _]]]].
  apply String.eqb_neq in H0, H1, H2, H3. repeat split; assumption.
Qed.

Lemma fs_lookup_remove q p fs :
  fs_lookup q (fs_remove p fs) = if String.eqb q p then None else fs_lookup q fs.
Proof.
  unfold fs_remove. induction fs as [|[r d] rest IH]; cbn [filter fs_lookup fst].
  - destruct (String.eqb q p); reflexivity.
  - destruct (String.eqb_spec p r) as [->|Hpr]; cbn [negb fs_lookup].
    + rewrite IH. destruct (String.eqb q r); reflexivity.
    + destruct (String.eqb_spec q r) as [->|Hqr]; [|exact IH].
      destruct (String.eqb_spec r p); [congruence|reflexivity].
Qed.

Lemma fs_lookup_rename_other q src dst fs :
  q <> src -> q <> dst -> fs_lookup q (fs_rename src dst fs) = fs_lookup q fs.
Proof.
  intros Hs Hd. unfold fs_rename. destruct (fs_lookup src fs); [|reflexivity].
  cbn [fs_lookup]. apply String.eqb_neq in Hs, Hd.
  rewrite Hd, !fs_lookup_remove, Hs, Hd. reflexivity.
Qed.

Lemma rotate_backup_other q i fs :
  q <> log_backup i -> q <> log_backup (S i) ->
  fs_lookup q (rotate_backup i fs) = fs_lookup q fs.
Proof.
  intros H1 H2. unfold rotate_backup.
  destruct (fs_exists (log_backup i) fs); [|reflexivity].
  rewrite fs_lookup_rename_other by assumption.
  destruct (fs_exists (log_backup (S i)) fs); [|reflexivity].
  rewrite fs_lookup_remove. apply String.eqb_neq in H2. rewrite H2. reflexivity.
Qed.

Lemma rotate_backups_other q i : forall fs,
  (forall j, 1 <= j <= S i -> q <> log_backup j) ->
  fs_lookup q (rotate_backups i fs) = fs_lookup q fs.
Proof.
  induction i as [|i IH]; intros fs H; cbn [rotate_backups]; [reflexivity|].
  rewrite IH by (intros j Hj; apply H; lia).
  apply rotate_backup_other; apply H; lia.
Qed.

Lemma do_rollover_other q fs :
  is_log_path q = false -> fs_lookup q (do_rollover fs) = fs_lookup q fs.
Proof.
  intros H. apply is_log_path_false in H as (H0 & H1 & H2 & H3).
  unfold do_rollover. cbn [fs_lookup].
  apply String.eqb_neq in H0 as E0. rewrite E0, fs_lookup_remove, E0.
  set (fs1 := rotate_backups (BACKUP_COUNT - 1) fs).
  assert (R1 : fs_lookup q fs1 = fs_lookup q fs).
  { apply rotate_backups_other. cbn [BACKUP_COUNT Nat.sub]. intros j Hj.
    assert (j = 1 \/ j = 2 \/ j = 3) as [-> | [-> | ->]] by lia; assumption. }
  set (fs2 := if fs_exists (log_backup 1) fs1 then fs_remove (log_backup 1) fs1 else fs1).
  assert (R2 : fs_lookup q fs2 = fs_lookup q fs).
  { unfold fs2. destruct (fs_exists (log_backup 1) fs1); [|exact R1].
    rewrite fs_lookup_remove. apply String.eqb_neq in H1. rewrite H1. exact R1. }
  destruct (fs_exists LOG_FILE fs2); [|exact R2].
  rewrite fs_lookup_rename_other by assumption. exact R2.
Qed.

Lemma handler_emit_other q r fs :
  is_log_path q = false -> fs_lookup q (handler_emit r fs) = fs_lookup q fs.
Proof.
  intros H. pose proof (is_log_path_false q H) as (H0 & _).
  unfold handler_emit. cbn [fs_lookup]. apply String.eqb_neq in H0.
  rewrite H0, fs_lookup_remove, H0.
  destruct (should_rollover _ _); [apply do_rollover_other; exact H|reflexivity].
Qed.

Lemma log_record_eq lvl msg b en w :
  exists r, log_record lvl msg b en w
  = (Ok tt, mkWorld (handler_emit r w.(w_fs)) w.(w_store) w.(w_tick)
                    (w.(w_trace) ++ [EvLog lvl msg])).
Proof. eexists. reflexivity. Qed.

Lemma download_gz_result url p en w :
  fst (download_gz url p en w)
  = match en.(e_archive) w.(w_tick) url with
    | ArchRaise m => Err (ExcRequest m)
    | ArchResp s _ => if negb (Z.eqb s 200) then Err (ExcDownload s) else Ok tt
    | ArchCut s _ m => if negb (Z.eqb s 200) then Err (ExcDownload s) else Err (ExcRequest m)
    end.
Proof.
  destruct en as [today tmp arch fetch clock up serr asct tb], w as [fs store t tr]; cbn.
  unfold download_gz. run; reflexivity.
Qed.

(* ------------------------------------------------------------------ *)
(** ** C6: the archive download *)

(** C6: [download_gz] raises the download failure ([DownloadError], for
    a status other than 200) exactly when the response status is not
    200; when it raises it, nothing has been written to any file but the
    log file and its backups (in particular not to the destination), the
    collection is untouched, and the only effects are the log line and
    the request; and in [main] such a failure ends the run right after
    the request: no file is opened, nothing is parsed, the collection is
    not touched, the temporary directory is cleaned up and the error
    logged. (A body stream that breaks after a 200 status raises the
    transport's exception instead, once the part received has been
    written to the destination.) *)
Theorem download_gz_raises_iff_not_200 (url dest : string) (en : env) (w : world) :
  ((exists s, fst (download_gz url dest en w) = Err (ExcDownload s)) <->
   (exists s, arch_status (en.(e_archive) w.(w_tick) url) = Some s /\ s <> 200%Z))
  /\ (forall s, fst (download_gz url dest en w) = Err (ExcDownload s) ->
        (forall q, is_log_path q = false ->
           fs_lookup q (snd (download_gz url dest en w)).(w_fs) = fs_lookup q w.(w_fs))
        /\ (snd (download_gz url dest en w)).(w_store) = w.(w_store)
        /\ (snd (download_gz url dest en w)).(w_trace)
           = (w.(w_trace) ++ [EvLog INFO ("Downloading " ++ url); EvGet url])%list)
  /\ (forall s,
        arch_status (en.(e_archive) w.(w_tick) (fst (get_today_idx_url en.(e_today)))) = Some s ->
        s <> 200%Z ->
        fst (main en w) = Ok tt
        /\ (snd (main en w)).(w_store) = w.(w_store)
        /\ (snd (main en w)).(w_trace)
           = (w.(w_trace) ++
              [EvTmpCreate en.(e_tmpdir);
               EvLog INFO ("Downloading " ++ fst (get_today_idx_url en.(e_today)));
               EvGet (fst (get_today_idx_url en.(e_today)));
               EvTmpCleanup en.(e_tmpdir);
               EvLog ERROR ("Fatal error: Download failed with status " ++ PyStr.str_Z s)])%list).
Proof.
  split; [|split].
  - rewrite download_gz_result.
    destruct (e_archive en (w_tick w) url) as [m|st b|st b m]; cbn [arch_status].
    + split; [intros [s Hs]; discriminate|intros (s & Hs & _); discriminate].
    + destruct (Z.eqb_spec st 200) as [->|Hst]; cbn [negb].
      * split; [intros [s Hs]; discriminate|intros (s & Hs & Hne); congruence].
      * split; [intros _; exists st; split; [reflexivity|exact Hst]|intros _; exists st; reflexivity].
    + destruct (Z.eqb_spec st 200) as [->|Hst]; cbn [negb].
      * split; [intros [s Hs]; discriminate|intros (s & Hs & Hne); congruence].
      * split; [intros _; exists st; split; [reflexivity|exact Hst]|intros _; exists st; reflexivity].
  - destruct en as [today tmp arch fetch clock up serr asct tb], w as [fs store t tr];
      cbn [e_archive w_tick w_fs w_store w_trace].
    intros s. unfold download_gz, http_get_stream. run; cbn [fst snd w_fs w_store w_trace];
      intros Hs; try discriminate Hs;
      (split; [intros q Hq; apply handler_emit_other, Hq|split; [reflexivity|]]);
      rewrite <- !app_assoc; reflexivity.
  - intros s Ha Hs.
    destruct en as [today tmp arch fetch clock up serr asct tb], w as [fs store t tr];
      cbn [e_archive e_tmpdir e_today w_tick w_fs w_store w_trace] in *.
    destruct (get_today_idx_url today) as [url0 fname] eqn:Eu; cbn [fst] in Ha |- *.
    unfold main, pipeline.
    cbv beta iota zeta delta [bind ret raise catch ask emit next_tick log log_record
      fst snd w_fs w_store w_tick w_trace e_archive e_tmpdir e_today].
    rewrite Eu.
    unfold with_tmpdir, download_gz, http_get_stream.
    cbv beta iota zeta delta [bind ret raise catch ask emit next_tick log log_record
      fst snd w_fs w_store w_tick w_trace e_archive e_tmpdir e_today].
    apply Z.eqb_neq in Hs.
    destruct (arch t url0) as [m|st b|st b m]; cbn [arch_status] in Ha;
      [discriminate|injection Ha as ->; rewrite Hs; cbn [negb fst snd]..];
      rewrite <- !app_assoc; repeat split; reflexivity.
Qed.

Lemma download_gz_raises_iff_not_200_witness :
  arch_status (e_archive (sample_env 404) 0 (fst (get_today_idx_url (e_today (sample_env 404)))))
    = Some 404%Z
  /\ 404%Z <> 200%Z
  /\ fst (main (sample_env 404) empty_world) = Ok tt
  /\ (snd (main (sample_env 404) empty_world)).(w_store) = [].
Proof.
  assert (Ha : arch_status (e_archive (sample_env 404) 0
                 (fst (get_today_idx_url (e_today (sample_env 404))))) = Some 404%Z)
    by reflexivity.
  assert (Hs : 404%Z <> 200%Z) by discriminate.
  destruct (proj2 (proj2 (download_gz_raises_iff_not_200 "" "" (sample_env 404) empty_world))
              404%Z Ha Hs) as [H1 [H2 _]].
  repeat split; assumption.
Defined.

(* ------------------------------------------------------------------ *)
(** ** C1: at most one insertion per accession *)

Fixpoint count_acc (a : string) (docs : list filing) : nat :=
  match docs with
  | [] => 0
  | d :: rest => (if String.eqb d.(accession) a then 1 else 0) + count_acc a rest
  end.

(** The collection grew from [s] to [s'] by appending documents, at most
    one per accession, and none for an accession already in [s]. *)
Definition fresh_ext (s s' : list filing) : Prop :=
  exists ins, s' = (s ++ ins)%list /\
    forall a, count_acc a ins <= 1 /\ (find_acc a s <> None -> count_acc a ins = 0).

Definition Preserves {A} (m : M A) : Prop :=
  forall en w, fresh_ext w.(w_store) (snd (m en w)).(w_store).

Lemma count_acc_app a l1 l2 : count_acc a (l1 ++ l2) = count_acc a l1 + count_acc a l2.
Proof. induction l1 as [|d l1 IH]; cbn; [reflexivity|]. rewrite IH. lia. Qed.

Lemma find_acc_app a l1 l2 :
  find_acc a (l1 ++ l2) = match find_acc a l1 with
                          | Some d => Some d
                          | None => find_acc a l2
                          end.
Proof. induction l1 as [|d l1 IH]; cbn; [reflexivity|]. destruct (String.eqb _ a); auto. Qed.

Lemma find_acc_count a l : find_acc a l = None <-> count_acc a l = 0.
Proof.
  induction l as [|d l IH]; cbn; [tauto|].
  destruct (String.eqb (accession d) a); [split; discriminate|]. exact IH.
Qed.

Lemma fresh_ext_refl s : fresh_ext s s.
Proof. exists []. rewrite app_nil_r. split; [reflexivity|]. intros a; cbn; lia. Qed.

Lemma fresh_ext_trans s1 s2 s3 : fresh_ext s1 s2 -> fresh_ext s2 s3 -> fresh_ext s1 s3.
Proof.
  intros [i1 [-> H1]] [i2 [-> H2]].
  exists (i1 ++ i2)%list. split; [symmetry; apply app_assoc|].
  intros a. rewrite count_acc_app.
  destruct (H1 a) as [Hle1 Hin1]. destruct (H2 a) as [Hle2 Hin2].
  rewrite find_acc_app in Hin2.
  destruct (find_acc a s1) eqn:Ea.
  - assert (count_acc a i1 = 0) by (apply Hin1; discriminate).
    rewrite H, Hin2 by discriminate. split; lia.
  - destruct (count_acc a i1) as [|[|k]] eqn:Ec.
    + split; [lia|]. intros C; contradiction.
    + rewrite Hin2; [split; [lia|]; intros C; contradiction|].
      intros Hn. apply find_acc_count in Hn. lia.
    + lia.
Qed.

Lemma fresh_ext_snoc s d : find_acc d.(accession) s = None -> fresh_ext s (s ++ [d])%list.
Proof.
  intros Hd. exists [d]. split; [reflexivity|]. intros a; cbn.
  destruct (String.eqb_spec (accession d) a) as [<-|Hne]; [|split; lia].
  split; [lia|]. rewrite Hd. intros C; contradiction.
Qed.

Lemma bind_pres {A B} (m : M A) (k : A -> M B) :
  Preserves m -> (forall a, Preserves (k a)) -> Preserves (bind m k).
Proof.
  intros Hm Hk en w. unfold bind. specialize (Hm en w).
  destruct (m en w) as [[a|x] w'] eqn:E; cbn in *; [|exact Hm].
  eapply fresh_ext_trans; [exact Hm|apply Hk].
Qed.

Lemma catch_pres {A} (m : M A) (h : py_exc -> M A) :
  Preserves m -> (forall x, Preserves (h x)) -> Preserves (catch m h).
Proof.
  intros Hm Hh en w. unfold catch. specialize (Hm en w).
  destruct (m en w) as [[a|x] w'] eqn:E; cbn in *; [exact Hm|].
  eapply fresh_ext_trans; [exact Hm|apply Hh].
Qed.

Lemma store_fixed_pres {A} (m : M A) :
  (forall en w, (snd (m en w)).(w_store) = w.(w_store)) -> Preserves m.
Proof. intros H en w. rewrite H. apply fresh_ext_refl. Qed.

Lemma ret_pres {A} (a : A) : Preserves (ret a).
Proof. apply store_fixed_pres. reflexivity. Qed.

Lemma raise_pres {A} x : Preserves (@raise A x).
Proof. apply store_fixed_pres. reflexivity. Qed.

Lemma ask_pres : Preserves ask.
Proof. apply store_fixed_pres. reflexivity. Qed.

Lemma emit_pres ev : Preserves (emit ev).
Proof. apply store_fixed_pres. reflexivity. Qed.

Lemma next_tick_pres : Preserves next_tick.
Proof. apply store_fixed_pres. reflexivity. Qed.

Lemma state_fun_pres {A} (g : world -> result A * world) :
  (forall w, (snd (g w)).(w_store) = w.(w_store)) -> Preserves (fun _ w => g w).
Proof. intros H. apply store_fixed_pres. intros en w. apply H. Qed.

Create HintDb pres.
#[local] Hint Resolve ret_pres raise_pres ask_pres emit_pres next_tick_pres : pres.

(** Compose preservation through the monadic structure of a definition. *)
Ltac pres :=
  repeat (intros; cbv beta;
          first [ solve [auto with pres]
                | apply bind_pres
                | apply catch_pres
                | progress (unfold log)
                | match goal with
                  | |- Preserves (match ?x with _ => _ end) => destruct x
                  end ]).

Lemma write_file_pres p d : Preserves (write_file p d).
Proof. unfold write_file. pres; try (apply state_fun_pres; reflexivity). Qed.

Lemma read_file_pres p : Preserves (read_file p).
Proof.
  unfold read_file. pres. intros _.
  apply store_fixed_pres. intros en w. cbn.
  destruct (fs_lookup p (w_fs w)); reflexivity.
Qed.

Lemma find_one_pres a : Preserves (find_one a).
Proof. unfold find_one, store_available. pres; try (apply state_fun_pres; reflexivity). Qed.

Lemma utcnow_pres : Preserves utcnow.
Proof. unfold utcnow. pres. Qed.

Lemma http_get_pres u : Preserves (http_get u).
Proof. unfold http_get. pres. Qed.

Lemma http_get_stream_pres u : Preserves (http_get_stream u).
Proof. unfold http_get_stream. pres. Qed.

#[local] Hint Resolve write_file_pres read_file_pres find_one_pres utcnow_pres
  http_get_pres http_get_stream_pres : pres.

Lemma fetch_filing_text_pres u : Preserves (fetch_filing_text u).
Proof. unfold fetch_filing_text. pres. Qed.

Lemma download_gz_pres u p : Preserves (download_gz u p).
Proof. unfold download_gz. pres. Qed.

Lemma decompress_gz_pres p q : Preserves (decompress_gz p q).
Proof. unfold decompress_gz. pres. Qed.

Lemma parse_idx_pres p : Preserves (parse_idx p).
Proof. unfold parse_idx. pres. Qed.

(** The lookup and the insert see the same collection: nothing between
    them writes to it. *)
Lemma insert_unique_pres f : Preserves (insert_unique f).
Proof.
  intros en w.
  destruct en as [today tmp arch fetch clock up serr asct tb], w as [fs store t tr].
  unfold insert_unique, fetch_filing_text.
  run; cbn in *;
    first [ apply fresh_ext_refl | apply fresh_ext_snoc; cbn; assumption ].
Qed.

#[local] Hint Resolve fetch_filing_text_pres download_gz_pres decompress_gz_pres
  parse_idx_pres insert_unique_pres : pres.

Lemma insert_all_pres l n : Preserves (insert_all l n).
Proof.
  revert n. induction l as [|f l IH]; intros n; cbn; pres.
Qed.

#[local] Hint Resolve insert_all_pres : pres.

Lemma with_tmpdir_pres {A} (body : string -> M A) :
  (forall dir, Preserves (body dir)) -> Preserves (with_tmpdir body).
Proof.
  intros Hb en w. unfold with_tmpdir, emit. cbn.
  specialize (Hb (e_tmpdir en) en
    (mkWorld (w_fs w) (w_store w) (w_tick w) (w_trace w ++ [EvTmpCreate (e_tmpdir en)]))).
  destruct (body (e_tmpdir en) en _) as [r w2]. exact Hb.
Qed.

Lemma main_pres : Preserves main.
Proof.
  unfold main, pipeline. pres.
  destruct (get_today_idx_url (e_today a)) as [url fname].
  apply with_tmpdir_pres. pres.
Qed.

(** C1: a present accession makes [insert_unique] return false with the
    collection unchanged; and two runs of [main] with the collection kept
    between them (whatever the index content, the answers of the servers
    and the failures of either run) only append documents to it, at most
    one per accession, and none for an accession it already held. *)
Theorem insert_unique_at_most_once :
  (forall f en w,
     en.(e_store_up) w.(w_tick) = true ->
     find_acc f.(accession) w.(w_store) <> None ->
     fst (insert_unique f en w) = Ok (false, f)
     /\ (snd (insert_unique f en w)).(w_store) = w.(w_store))
  /\ (forall en1 en2 w0,
        fresh_ext w0.(w_store) (snd (main en2 (snd (main en1 w0)))).(w_store)).
Proof.
  split.
  - intros f [today tmp arch fetch clock up serr asct tb] [fs store t tr] Hup Hpres; cbn in *.
    unfold insert_unique. run; cbn in *; try congruence. split; reflexivity.
  - intros en1 en2 w0.
    eapply fresh_ext_trans; apply main_pres.
Qed.

Lemma insert_unique_at_most_once_witness :
  e_store_up (sample_env 200) (w_tick (snd (main (sample_env 200) empty_world))) = true
  /\ find_acc acme_filing.(accession) (snd (main (sample_env 200) empty_world)).(w_store) <> None
  /\ fst (insert_unique acme_filing (sample_env 200) (snd (main (sample_env 200) empty_world)))
     = Ok (false, acme_filing).
Proof.
  assert (Hup : e_store_up (sample_env 200) (w_tick (snd (main (sample_env 200) empty_world))) = true)
    by reflexivity.
  assert (Hin : find_acc acme_filing.(accession) (snd (main (sample_env 200) empty_world)).(w_store)
                <> None) by (vm_compute; discriminate).
  split; [exact Hup|]. split; [exact Hin|].
  exact (proj1 (proj1 insert_unique_at_most_once acme_filing (sample_env 200) _ Hup Hin)).
Defined.

(** On the sample day, a second run over the same index stores nothing
    new: the duplicate line and the rerun both find "acme-10k". *)
Example sample_two_runs_count :
  count_acc "acme-10k"
    (snd (main (sample_env 200) (snd (main (sample_env 200) empty_world)))).(w_store) = 1.
Proof. vm_compute. reflexivity. Qed.

(* ------------------------------------------------------------------ *)
(** ** C4: lines the parser drops *)

Lemma parse_lines_app l1 l2 :
  parse_lines (l1 ++ l2) = (parse_lines l1 ++ parse_lines l2)%list.
Proof.
  induction l1 as [|line l1 IH]; cbn; [reflexivity|].
  destruct (parse_line line); rewrite IH; reflexivity.
Qed.

Lemma parse_line_rejects line :
  PyStr.contains PIPE line = false
  \/ length (PyStr.split PIPE (PyStr.strip line)) <> 5
  \/ (exists c0 c1 form c3 c4,
        map PyStr.strip (PyStr.split PIPE (PyStr.strip line)) = [c0; c1; form; c3; c4]
        /\ in_target_forms form = false) ->
  parse_line line = None.
Proof.
  unfold parse_line. intros [Hp|[Hlen|(c0 & c1 & form & c3 & c4 & Hparts & Hform)]].
  - rewrite Hp. reflexivity.
  - destruct (PyStr.contains PIPE line); [|reflexivity].
    rewrite <- (length_map PyStr.strip) in Hlen.
    destruct (map PyStr.strip (PyStr.split PIPE (PyStr.strip line)))
      as [|x0 [|x1 [|x2 [|x3 [|x4 [|x5 rest]]]]]]; try reflexivity.
    cbn in Hlen. congruence.
  - destruct (PyStr.contains PIPE line); [|reflexivity].
    rewrite Hparts, Hform. reflexivity.
Qed.

(** C4: a line with no pipe, or not splitting into exactly five fields,
    or whose form-type field is not in [TARGET_FORMS], contributes no
    record: [parse_idx] over a file holding it returns, without raising,
    the records of the other lines only. *)
Theorem parse_idx_rejects_line (pre post : list string) (line path : string)
  (en : env) (w : world)
  (Hfile : fs_lookup path w.(w_fs) = Some (FileText (pre ++ line :: post)))
  (Hrej : PyStr.contains PIPE line = false
          \/ length (PyStr.split PIPE (PyStr.strip line)) <> 5
          \/ (exists c0 c1 form c3 c4,
                map PyStr.strip (PyStr.split PIPE (PyStr.strip line)) = [c0; c1; form; c3; c4]
                /\ in_target_forms form = false)) :
  fst (parse_idx path en w) = Ok (parse_lines pre ++ parse_lines post)%list.
Proof.
  unfold parse_idx, read_file, bind, emit. cbn.
  rewrite Hfile. cbn. f_equal.
  rewrite parse_lines_app. cbn. rewrite (parse_line_rejects line Hrej). reflexivity.
Qed.

Lemma parse_idx_rejects_line_witness :
  fst (parse_idx "/tmp/t/master.20240105.idx" (sample_env 200)
         (mkWorld [("/tmp/t/master.20240105.idx", FileText sample_lines)] [] 0 []))
  = Ok [acme_filing; acme_filing].
Proof.
  apply (parse_idx_rejects_line
           ["Description: Master Index of EDGAR Dissemination Feed";
            "CIK|Company Name|Form Type|Date Filed|File Name";
            "0001|Acme Co|10-K|2024-01-05|edgar/data/1/acme-10k.txt"]
           ["0001|Acme Co|10-K|2024-01-05|edgar/data/1/acme-10k.txt"]
           "0002|Beta Inc|8-K|2024-01-05|edgar/data/2/beta-8k.txt").
  - reflexivity.
  - right. right. do 5 eexists. split; vm_compute; reflexivity.
Defined.

(* ------------------------------------------------------------------ *)
(** ** C3: the accession of an accepted line *)

(** The accession as the specification words it: the last path segment
    of the filename field with one trailing ".txt" stripped. *)
Definition spec_accession (filename : string) : string :=
  let seg := PyStr.last_item (PyStr.split SLASH filename) in
  let n := String.length seg in
  if (4 <=? n) && String.eqb (substring (n - 4) 4 seg) ".txt"
  then substring 0 (n - 4) seg else seg.

Definition mid_txt_line : string :=
  "0001|Acme Co|10-K|2024-01-05|edgar/data/1/acme.txt.v2.txt".

(** C3 at a line whose filename holds ".txt" before its suffix: the line
    is accepted and gives exactly one record with the expected [file_url],
    but [str.replace] removes every ".txt", so its accession is "acme.v2"
    where stripping the trailing suffix gives "acme.txt.v2". *)
Theorem parse_idx_accession_replaces_every_txt :
  parse_lines [mid_txt_line]
  = [mkFiling "0001" "Acme Co" "10-K" "2024-01-05" "acme.v2"
       "https://www.sec.gov/Archives/edgar/data/1/acme.txt.v2.txt" None None]
  /\ spec_accession "edgar/data/1/acme.txt.v2.txt" = "acme.txt.v2"
  /\ spec_accession "edgar/data/1/acme-10k.txt" = "acme-10k".
Proof. vm_compute. repeat split. Qed.

(* ------------------------------------------------------------------ *)
(** ** C5: the index locator *)

(** Decimal value of a string of digits. *)
Fixpoint dval (acc : nat) (s : string) : nat :=
  match s with
  | EmptyString => acc
  | String c s' => dval (10 * acc + (nat_of_ascii c - 48)) s'
  end.

Fixpoint all_digits (s : string) : bool :=
  match s with
  | EmptyString => true
  | String c s' => (48 <=? nat_of_ascii c) && (nat_of_ascii c <=? 57) && all_digits s'
  end.

Lemma length_append (s1 s2 : string) :
  String.length (s1 ++ s2) = String.length s1 + String.length s2.
Proof. induction s1; cbn; congruence. Qed.

Lemma dval_app acc s1 s2 : dval acc (s1 ++ s2) = dval (dval acc s1) s2.
Proof. revert acc. induction s1; intros acc; cbn; auto. Qed.

Lemma dval_acc acc s : dval acc s = acc * 10 ^ String.length s + dval 0 s.
Proof.
  revert acc. induction s as [|c s IH]; intros acc; cbn [dval String.length].
  - cbn. lia.
  - rewrite (IH (10 * acc + _)), (IH (10 * 0 + _)).
    rewrite Nat.pow_succ_r'. ring.
Qed.

Lemma all_digits_app s1 s2 : all_digits (s1 ++ s2) = all_digits s1 && all_digits s2.
Proof. induction s1; cbn; [reflexivity|]. rewrite IHs1. apply andb_assoc. Qed.

Lemma digit_code n : n < 10 -> nat_of_ascii (PyStr.digit n) = 48 + n.
Proof. intros H. unfold PyStr.digit. apply nat_ascii_embedding. lia. Qed.

Lemma digit_ok n :
  n < 10 -> (48 <=? nat_of_ascii (PyStr.digit n)) && (nat_of_ascii (PyStr.digit n) <=? 57) = true.
Proof.
  intros H. rewrite (digit_code n H).
  apply andb_true_intro; split; apply Nat.leb_le; lia.
Qed.

Lemma str_nat_fuel_spec fuel n :
  n < fuel ->
  all_digits (PyStr.str_nat_fuel fuel n) = true
  /\ dval 0 (PyStr.str_nat_fuel fuel n) = n
  /\ (forall k, 0 < k -> n < 10 ^ k -> String.length (PyStr.str_nat_fuel fuel n) <= k).
Proof.
  revert n. induction fuel as [|f IH]; intros n Hn; [lia|].
  cbn [PyStr.str_nat_fuel].
  destruct (Nat.ltb_spec n 10) as [Hlt|Hge].
  - repeat split.
    + cbn [all_digits]. rewrite (digit_ok n Hlt). reflexivity.
    + cbn [dval]. rewrite (digit_code n Hlt). lia.
    + intros k Hk _. cbn. lia.
  - assert (Hq : n / 10 < f).
    { apply Nat.Div0.div_lt_upper_bound. lia. }
    destruct (IH (n / 10) Hq) as (Hd & Hv & Hl).
    assert (Hm : n mod 10 < 10) by (apply Nat.mod_upper_bound; lia).
    repeat split.
    + rewrite all_digits_app, Hd. cbn [all_digits andb].
      rewrite (digit_ok _ Hm). reflexivity.
    + rewrite dval_app, Hv. cbn [dval]. rewrite (digit_code _ Hm).
      pose proof (Nat.div_mod n 10 ltac:(lia)). lia.
    + intros k Hk Hnk. rewrite length_append. cbn [String.length].
      destruct k as [|k]; [lia|].
      destruct k as [|k].
      { cbn in Hnk. lia. }
      assert (n / 10 < 10 ^ S k).
      { apply Nat.Div0.div_lt_upper_bound. rewrite <- Nat.pow_succ_r'. exact Hnk. }
      specialize (Hl (S k) ltac:(lia) H). lia.
Qed.

Lemma zeros_spec k :
  String.length (PyStr.zeros k) = k /\ all_digits (PyStr.zeros k) = true
  /\ dval 0 (PyStr.zeros k) = 0.
Proof.
  induction k as [|k IH]; [auto|]. destruct IH as (H1 & H2 & H3).
  cbn [PyStr.zeros String.length all_digits dval]. rewrite H1, H2.
  split; [reflexivity|]. split; [reflexivity|]. exact H3.
Qed.

Lemma zpad_str_nat_spec width n :
  0 < width -> n < 10 ^ width ->
  String.length (PyStr.zpad width (PyStr.str_nat n)) = width
  /\ all_digits (PyStr.zpad width (PyStr.str_nat n)) = true
  /\ dval 0 (PyStr.zpad width (PyStr.str_nat n)) = n.
Proof.
  intros Hw Hn. unfold PyStr.zpad, PyStr.str_nat.
  destruct (str_nat_fuel_spec (S n) n ltac:(lia)) as (Hd & Hv & Hl).
  specialize (Hl width Hw Hn).
  destruct (zeros_spec (width - String.length (PyStr.str_nat_fuel (S n) n))) as (Zl & Zd & Zv).
  repeat split.
  - rewrite length_append, Zl. lia.
  - rewrite all_digits_app, Zd, Hd. reflexivity.
  - rewrite dval_app, Zv, Hv. reflexivity.
Qed.

Lemma str_nat_small q : q < 10 -> PyStr.str_nat q = String (PyStr.digit q) EmptyString.
Proof.
  intros H. unfold PyStr.str_nat. cbn [PyStr.str_nat_fuel].
  rewrite (proj2 (Nat.ltb_lt q 10) H). reflexivity.
Qed.

(** C5: for every date (a year of at most four digits, as Python's
    [date] allows; month 1..12; day at most 31), the quarter [q = (month-1)//3 + 1] is
    in 1..4 and is the quarter holding the month, the directory is
    [BASE_URL/<year>/QTR<q>] with [q] a single digit, and the file name
    is [master.<YYYYMMDD>.idx.gz] where [YYYYMMDD] is 8 decimal digits
    reading [year*10^4 + month*10^2 + day]. *)
Theorem get_today_idx_url_layout (d : date)
  (Hy : d.(year) < 10 ^ 4) (Hm : 1 <= d.(month) <= 12) (Hd : d.(day) <= 31) :
  let q := (d.(month) - 1) / 3 + 1 in
  1 <= q <= 4
  /\ 3 * (q - 1) + 1 <= d.(month) <= 3 * q
  /\ exists ymd,
       get_today_idx_url d
       = (BASE_URL ++ "/" ++ PyStr.str_nat d.(year) ++ "/"
            ++ ("QTR" ++ String (PyStr.digit q) EmptyString)
            ++ "/" ++ ("master." ++ ymd ++ ".idx.gz"),
          "master." ++ ymd ++ ".idx.gz")
       /\ String.length ymd = 8
       /\ all_digits ymd = true
       /\ dval 0 ymd = d.(year) * 10 ^ 4 + d.(month) * 10 ^ 2 + d.(day).
Proof.
  intros q.
  pose proof (Nat.div_mod (d.(month) - 1) 3 ltac:(lia)) as Hdm.
  pose proof (Nat.mod_upper_bound (d.(month) - 1) 3 ltac:(lia)) as Hmod.
  assert (Hq : 1 <= q <= 4) by (unfold q; lia).
  split; [exact Hq|]. split; [unfold q; lia|].
  exists (strftime_Ymd d).
  destruct (zpad_str_nat_spec 4 d.(year) ltac:(lia) Hy) as (Yl & Yd & Yv).
  destruct (zpad_str_nat_spec 2 d.(month) ltac:(lia) ltac:(cbn; lia)) as (Ml & Md & Mv).
  destruct (zpad_str_nat_spec 2 d.(day) ltac:(lia) ltac:(cbn; lia)) as (Dl & Dd & Dv).
  unfold strftime_Ymd.
  repeat split.
  - unfold get_today_idx_url. fold q. rewrite (str_nat_small q ltac:(lia)). reflexivity.
  - rewrite !length_append, Yl, Ml, Dl. reflexivity.
  - rewrite !all_digits_app, Yd, Md, Dd. reflexivity.
  - rewrite !dval_app, Yv.
    rewrite (dval_acc d.(year)), Mv, Ml.
    rewrite (dval_acc _ (PyStr.zpad 2 (PyStr.str_nat d.(day)))), Dv, Dl.
    change (10 ^ 4) with (10 ^ (2 + 2)). rewrite Nat.pow_add_r. ring.
Qed.

Lemma get_today_idx_url_layout_witness :
  (mkDate 2024 11 30).(year) < 10 ^ 4 /\ 1 <= (mkDate 2024 11 30).(month) <= 12
  /\ (mkDate 2024 11 30).(day) <= 31
  /\ (exists ymd,
        get_today_idx_url (mkDate 2024 11 30)
        = (BASE_URL ++ "/" ++ PyStr.str_nat 2024 ++ "/"
             ++ ("QTR" ++ String (PyStr.digit 4) EmptyString)
             ++ "/" ++ ("master." ++ ymd ++ ".idx.gz"),
           "master." ++ ymd ++ ".idx.gz")
        /\ String.length ymd = 8
        /\ all_digits ymd = true
        /\ dval 0 ymd = 2024 * 10 ^ 4 + 11 * 10 ^ 2 + 30).
Proof.
  assert (Hy : (mkDate 2024 11 30).(year) < 10 ^ 4) by (apply Nat.ltb_lt; vm_compute; reflexivity).
  assert (Hm : 1 <= (mkDate 2024 11 30).(month) <= 12) by (cbn; lia).
  assert (Hd : (mkDate 2024 11 30).(day) <= 31) by (cbn; lia).
  split; [exact Hy|]. split; [exact Hm|]. split; [exact Hd|].
  exact (proj2 (proj2 (get_today_idx_url_layout (mkDate 2024 11 30) Hy Hm Hd))).
Defined.

(* ================================================================== *)
(** * Further properties of the module *)

(* ------------------------------------------------------------------ *)
(** ** What [parse_idx] produces *)

Lemma parse_lines_shape_l (lines : list string) :
  Forall (fun f =>
            in_target_forms f.(form_type) = true
            /\ f.(ingested_at) = None /\ f.(raw_text) = None
            /\ exists fn, f.(file_url) = ARCHIVES_ROOT ++ fn
                          /\ f.(accession)
                             = PyStr.replace ".txt" "" (PyStr.last_item (PyStr.split SLASH fn)))
         (parse_lines lines)
  /\ length (parse_lines lines) <= length lines.
Proof.
  induction lines as [|line rest [IHf IHl]]; cbn; [split; [constructor | lia]|].
  destruct (parse_line line) as [f|] eqn:Hl; [|split; [exact IHf | lia]].
  split; [|cbn; lia].
  constructor; [|exact IHf].
  unfold parse_line in Hl.
  destruct (PyStr.contains PIPE line); [|discriminate].
  destruct (map PyStr.strip (PyStr.split PIPE (PyStr.strip line)))
    as [|x0 [|x1 [|x2 [|x3 [|x4 [|x5 r]]]]]]; try discriminate.
  destruct (in_target_forms x2) eqn:Hf; [|discriminate].
  injection Hl as <-. cbn. repeat split; auto. exists x4. split; reflexivity.
Qed.

(** Every record built by the parser has an accepted form type, no
    [ingested_at] and no [raw_text] yet, a [file_url] made of the archive
    root and the filename field, and an accession derived from that same
    filename field; there is at most one record per line. *)
Theorem parse_lines_records_shape (lines : list string) :
  Forall (fun f =>
            in_target_forms f.(form_type) = true
            /\ f.(ingested_at) = None /\ f.(raw_text) = None
            /\ exists fn, f.(file_url) = ARCHIVES_ROOT ++ fn
                          /\ f.(accession)
                             = PyStr.replace ".txt" "" (PyStr.last_item (PyStr.split SLASH fn)))
         (parse_lines lines)
  /\ length (parse_lines lines) <= length lines.
Proof. exact (parse_lines_shape_l lines). Qed.

(* ------------------------------------------------------------------ *)
(** ** What [insert_unique] does to the collection *)

Lemma insert_unique_store_effect_l (f : filing) (en : env) (w : world)
  (b : bool) (f' : filing) (w' : world) :
  insert_unique f en w = (Ok (b, f'), w') ->
  w'.(w_store) = (w.(w_store) ++ (if b then [f'] else []))%list
  /\ (b = true -> (exists s, f'.(raw_text) = Some s /\ s <> "")
                  /\ (exists t, f'.(ingested_at) = Some t)
                  /\ f'.(form_type) = f.(form_type) /\ f'.(file_url) = f.(file_url)).
Proof.
  destruct en as [today tmp arch fetch clock up serr asct tb], w as [fs store t tr].
  unfold insert_unique, fetch_filing_text.
  run; cbn in *; intros H; try discriminate H; injection H as <- <- <-; cbn;
    (split; [rewrite ?app_nil_r; reflexivity|intros Hb; try discriminate Hb]).
  split; [|split; [eexists; reflexivity|split; reflexivity]].
  eexists; split; [reflexivity|].
  destruct (String.eqb_spec text ""); [discriminate|assumption].
Qed.

(** When [insert_unique] returns normally, the collection is unchanged
    if it returned false, and has exactly the returned record appended if
    it returned true; that record then carries a non-empty [raw_text] and
    an [ingested_at]. *)
Theorem insert_unique_store_effect (f : filing) (en : env) (w : world)
  (b : bool) (f' : filing) (w' : world) :
  insert_unique f en w = (Ok (b, f'), w') ->
  w'.(w_store) = (w.(w_store) ++ (if b then [f'] else []))%list
  /\ (b = true -> (exists s, f'.(raw_text) = Some s /\ s <> "")
                  /\ (exists t, f'.(ingested_at) = Some t)
                  /\ f'.(form_type) = f.(form_type) /\ f'.(file_url) = f.(file_url)).
Proof. exact (insert_unique_store_effect_l f en w b f' w').
Qed.

Lemma insert_unique_store_effect_witness :
  exists b f' w',
    insert_unique acme_filing (sample_env 200) empty_world = (Ok (b, f'), w')
    /\ w'.(w_store) = ([] ++ (if b then [f'] else []))%list.
Proof.
  assert (H : insert_unique acme_filing (sample_env 200) empty_world
              = (Ok (true, set_raw_text "<html>10-K</html>" (set_ingested_at 1 acme_filing)),
                 snd (insert_unique acme_filing (sample_env 200) empty_world)))
    by (vm_compute; reflexivity).
  do 3 eexists. split; [exact H|].
  exact (proj1 (insert_unique_store_effect acme_filing (sample_env 200) empty_world
                  _ _ _ H)).
Defined.

Lemma insert_all_counts_l (l : list filing) (n k : nat) (en : env) (w w' : world) :
  insert_all l n en w = (Ok k, w') ->
  length w'.(w_store) + n = length w.(w_store) + k.
Proof.
  revert n w. induction l as [|f l IH]; intros n w H; cbn in H.
  - injection H as <- <-. reflexivity.
  - unfold bind in H.
    destruct (insert_unique f en w) as [[[b f']|x] w1] eqn:E; [|discriminate].
    destruct (insert_unique_store_effect_l f en w b f' w1 E) as [Hs _].
    specialize (IH _ _ H). cbn [fst] in IH.
    rewrite Hs, length_app in IH. destruct b; cbn in IH; lia.
Qed.

(** The counter of [main]'s loop: when the loop over the records ends
    normally with [new_count = k], exactly [k - n] documents were added
    to the collection (the loop started from [n]). *)
Theorem insert_all_counts_inserts (l : list filing) (n k : nat) (en : env) (w w' : world) :
  insert_all l n en w = (Ok k, w') ->
  length w'.(w_store) + n = length w.(w_store) + k.
Proof. exact (insert_all_counts_l l n k en w w'). Qed.

Lemma insert_all_counts_inserts_witness :
  insert_all [acme_filing; acme_filing] 0 (sample_env 200) empty_world
  = (Ok 1, snd (insert_all [acme_filing; acme_filing] 0 (sample_env 200) empty_world))
  /\ length (snd (insert_all [acme_filing; acme_filing] 0 (sample_env 200) empty_world)).(w_store)
     + 0 = length empty_world.(w_store) + 1.
Proof.
  assert (H : insert_all [acme_filing; acme_filing] 0 (sample_env 200) empty_world
              = (Ok 1, snd (insert_all [acme_filing; acme_filing] 0 (sample_env 200) empty_world)))
    by (vm_compute; reflexivity).
  split; [exact H|].
  exact (insert_all_counts_inserts _ _ _ _ _ _ H).
Defined.

(* ------------------------------------------------------------------ *)
(** ** What [main] stores *)

(** The collection grows only by documents satisfying [P], and the value
    returned (when the computation returns normally) satisfies [Q]. *)
Definition Appends (P : filing -> Prop) {A} (Q : A -> Prop) (m : M A) : Prop :=
  forall en w,
    (exists ins, (snd (m en w)).(w_store) = (w.(w_store) ++ ins)%list /\ Forall P ins)
    /\ (forall a, fst (m en w) = Ok a -> Q a).

Section Appending.
Variable P : filing -> Prop.

Lemma appends_bind {A B} (Q : A -> Prop) (R : B -> Prop) (m : M A) (k : A -> M B) :
  Appends P Q m -> (forall a, Q a -> Appends P R (k a)) -> Appends P R (bind m k).
Proof.
  intros Hm Hk en w. unfold bind. destruct (Hm en w) as [[i1 [E1 F1]] HQ].
  destruct (m en w) as [[a|x] w1] eqn:E; cbn in *.
  - destruct (Hk a (HQ a eq_refl) en w1) as [[i2 [E2 F2]] HR].
    split; [|exact HR].
    exists (i1 ++ i2)%list. rewrite E2, E1, app_assoc. split; [reflexivity|].
    apply Forall_app; split; assumption.
  - split; [exists i1; split; assumption|discriminate].
Qed.

Lemma appends_catch {A} (Q : A -> Prop) (m : M A) (h : py_exc -> M A) :
  Appends P Q m -> (forall x, Appends P Q (h x)) -> Appends P Q (catch m h).
Proof.
  intros Hm Hh en w. unfold catch. destruct (Hm en w) as [[i1 [E1 F1]] HQ].
  destruct (m en w) as [[a|x] w1] eqn:E; cbn in *.
  - split; [exists i1; split; assumption|exact HQ].
  - destruct (Hh x en w1) as [[i2 [E2 F2]] HR]. split; [|exact HR].
    exists (i1 ++ i2)%list. rewrite E2, E1, app_assoc. split; [reflexivity|].
    apply Forall_app; split; assumption.
Qed.

Lemma appends_store_fixed {A} (m : M A) :
  (forall en w, (snd (m en w)).(w_store) = w.(w_store)) -> Appends P (fun _ => True) m.
Proof.
  intros H en w. split; [|auto]. exists []. rewrite app_nil_r. split; [apply H|constructor].
Qed.

Lemma appends_weaken {A} (Q Q' : A -> Prop) (m : M A) :
  Appends P Q m -> (forall a, Q a -> Q' a) -> Appends P Q' m.
Proof.
  intros H HQ en w. destruct (H en w) as [Hs HR]. split; [exact Hs|].
  intros a Ha. apply HQ, HR, Ha.
Qed.

Lemma appends_with_tmpdir {A} (Q : A -> Prop) (body : string -> M A) :
  (forall dir, Appends P Q (body dir)) -> Appends P Q (with_tmpdir body).
Proof.
  intros Hb en w. unfold with_tmpdir, emit. cbn.
  destruct (Hb (e_tmpdir en) en
    (mkWorld (w_fs w) (w_store w) (w_tick w) (w_trace w ++ [EvTmpCreate (e_tmpdir en)])))
    as [Hs HQ].
  destruct (body (e_tmpdir en) en _) as [r w2]. cbn in *. split; assumption.
Qed.

End Appending.

Definition StoreFixed {A} (m : M A) : Prop :=
  forall en w, (snd (m en w)).(w_store) = w.(w_store).

Ltac store_fixed_tac :=
  intros [today tmp arch fetch clock up serr asct tb] [fs store t tr]; run; reflexivity.

Lemma log_record_fixed lvl msg b : StoreFixed (log_record lvl msg b).
Proof. store_fixed_tac. Qed.

Lemma log_fixed lvl msg : StoreFixed (log lvl msg).
Proof. apply log_record_fixed. Qed.

Lemma download_gz_fixed u p : StoreFixed (download_gz u p).
Proof. unfold download_gz. store_fixed_tac. Qed.

Lemma decompress_gz_fixed p q : StoreFixed (decompress_gz p q).
Proof.
  intros en [fs store t tr].
  cbv beta iota zeta delta [decompress_gz bind read_file write_file opened_content emit ret raise
    fst snd w_fs w_store w_tick w_trace].
  destruct (fs_lookup p fs); [|reflexivity].
  destruct (gunzip _) as [l [g|]]; reflexivity.
Qed.

Lemma parse_idx_fixed p : StoreFixed (parse_idx p).
Proof. unfold parse_idx. store_fixed_tac. Qed.

Lemma insert_unique_err_store (f : filing) (en : env) (w : world) (x : py_exc) (w' : world) :
  insert_unique f en w = (Err x, w') -> w'.(w_store) = w.(w_store).
Proof.
  destruct en as [today tmp arch fetch clock up serr asct tb], w as [fs store t tr].
  unfold insert_unique, fetch_filing_text.
  run; cbn in *; intros H; try discriminate H; injection H as _ Hw; subst; reflexivity.
Qed.

(** A record as [parse_idx] hands it to [insert_unique]. *)
Definition parsed_ok (f : filing) : Prop :=
  in_target_forms f.(form_type) = true
  /\ exists fn, f.(file_url) = ARCHIVES_ROOT ++ fn.

(** A document as it lands in the collection. *)
Definition stored_ok (f : filing) : Prop :=
  in_target_forms f.(form_type) = true
  /\ (exists fn, f.(file_url) = ARCHIVES_ROOT ++ fn)
  /\ (exists s, f.(raw_text) = Some s /\ s <> "")
  /\ (exists t, f.(ingested_at) = Some t).

Lemma insert_unique_appends f :
  parsed_ok f -> Appends stored_ok (fun _ => True) (insert_unique f).
Proof.
  intros [Hf Hu] en w. split; [|auto].
  destruct (insert_unique f en w) as [[[b f']|x] w'] eqn:E; cbn.
  - destruct (insert_unique_store_effect_l f en w b f' w' E) as [Hs Hb].
    exists (if b then [f'] else []). split; [exact Hs|].
    destruct b; [|constructor].
    destruct (Hb eq_refl) as (Hr & Ht & Hform & Hurl).
    repeat constructor; try assumption.
    + rewrite Hform; exact Hf.
    + rewrite Hurl; exact Hu.
  - exists []. rewrite app_nil_r. split; [exact (insert_unique_err_store f en w x w' E)|constructor].
Qed.

Lemma insert_all_appends l n :
  Forall parsed_ok l -> Appends stored_ok (fun _ => True) (insert_all l n).
Proof.
  revert n. induction l as [|f l IH]; intros n Hl; cbn.
  - apply appends_store_fixed. reflexivity.
  - inversion Hl as [|? ? Hf Hrest]; subst.
    apply (appends_bind _ (fun _ => True)); [apply insert_unique_appends, Hf|].
    intros r _. apply IH, Hrest.
Qed.

Lemma parse_idx_appends p :
  Appends stored_ok (Forall parsed_ok) (parse_idx p).
Proof.
  intros en w. split.
  - exists []. rewrite app_nil_r. split; [apply parse_idx_fixed|constructor].
  - intros a. destruct w as [fs store t tr]. unfold parse_idx.
    run; intros H; try discriminate H; injection H as <-;
      try solve [constructor];
      (eapply Forall_impl; [|exact (proj1 (parse_lines_shape_l _))];
       intros g (H1 & _ & _ & fn & H2 & _); split; [exact H1|exists fn; exact H2]).
Qed.

Lemma main_appends : Appends stored_ok (fun _ => True) main.
Proof.
  unfold main, pipeline.
  apply appends_catch.
  - apply (appends_bind _ (fun _ => True)); [apply appends_store_fixed; reflexivity|].
    intros en _. destruct (get_today_idx_url (e_today en)) as [url fname].
    apply appends_with_tmpdir. intros dir.
    apply (appends_bind _ (fun _ => True)); [apply appends_store_fixed, download_gz_fixed|intros ? _].
    apply (appends_bind _ (fun _ => True)); [apply appends_store_fixed, decompress_gz_fixed|intros ? _].
    apply (appends_bind _ (Forall parsed_ok)); [apply parse_idx_appends|intros filings Hl].
    apply (appends_bind _ (fun _ => True)); [apply appends_store_fixed, log_fixed|intros ? _].
    apply (appends_bind _ (fun _ => True)); [apply insert_all_appends, Hl|intros ? _].
    apply appends_store_fixed, log_fixed.
  - intros x. apply appends_store_fixed, log_record_fixed.
Qed.

(** A run of [main] only appends to the collection, and every document
    it appends has a form type of [TARGET_FORMS], a [file_url] under the
    EDGAR archives root, a non-empty [raw_text] and an [ingested_at]
    stamp, whatever the index content and the failures on the way. *)
Theorem main_appends_complete_documents (en : env) (w : world) :
  exists ins, (snd (main en w)).(w_store) = (w.(w_store) ++ ins)%list
              /\ Forall stored_ok ins.
Proof. exact (proj1 (main_appends en w)). Qed.

(* ------------------------------------------------------------------ *)
(** ** The local files of a run *)

Lemma fs_lookup_write_l q p d fs :
  fs_lookup q ((p, d) :: filter (fun e => negb (String.eqb p (fst e))) fs)
  = if String.eqb q p then Some d else fs_lookup q fs.
Proof.
  cbn. destruct (String.eqb_spec q p) as [->|Hne]; [reflexivity|].
  induction fs as [|[r e] rest IH]; cbn; [reflexivity|].
  destruct (String.eqb_spec p r) as [->|]; cbn.
  - destruct (String.eqb_spec q r); [congruence|exact IH].
  - destruct (String.eqb q r); [reflexivity|exact IH].
Qed.

Lemma read_file_eq p en w :
  read_file p en w
  = (match fs_lookup p w.(w_fs) with Some d => Ok d | None => Err (ExcOS p) end,
     mkWorld w.(w_fs) w.(w_store) w.(w_tick) (w.(w_trace) ++ [EvOpen p])).
Proof. unfold read_file, bind, emit. cbn. destruct (fs_lookup p (w_fs w)); reflexivity. Qed.

Lemma write_file_eq p d en w :
  write_file p d en w
  = (Ok tt, mkWorld ((p, d) :: filter (fun e => negb (String.eqb p (fst e))) w.(w_fs))
                    w.(w_store) w.(w_tick) (w.(w_trace) ++ [EvWrite p])).
Proof. reflexivity. Qed.

Lemma fs_lookup_write2_l q p d1 d2 fs :
  fs_lookup q ((p, d1) :: filter (fun e => negb (String.eqb p (fst e)))
                 ((p, d2) :: filter (fun e => negb (String.eqb p (fst e))) fs))
  = if String.eqb q p then Some d1 else fs_lookup q fs.
Proof.
  rewrite fs_lookup_write_l. destruct (String.eqb q p) eqn:E; [reflexivity|].
  rewrite fs_lookup_write_l, E. reflexivity.
Qed.

Lemma decompress_gz_cases_l (src dest : string) (en : env) (w : world) (q : string) :
  let '(r, w') := decompress_gz src dest en w in
  match fs_lookup src w.(w_fs) with
  | None => r = Err (ExcOS src) /\ w'.(w_fs) = w.(w_fs)
  | Some d =>
      let d' := if String.eqb src dest then FileText [] else d in
      r = match snd (gunzip d') with None => Ok tt | Some g => Err (ExcGzip g) end
      /\ fs_lookup q w'.(w_fs)
         = if String.eqb q dest then Some (FileText (fst (gunzip d'))) else fs_lookup q w.(w_fs)
  end.
Proof.
  unfold decompress_gz, bind. rewrite read_file_eq. cbn [w_fs].
  destruct (fs_lookup src (w_fs w)) as [d|] eqn:Hs; [|split; reflexivity].
  rewrite write_file_eq. cbv beta iota zeta. unfold opened_content. cbn [w_fs].
  rewrite (fs_lookup_write_l src dest (FileText []) (w_fs w)), Hs.
  destruct (String.eqb src dest); cbv iota;
    destruct (snd (gunzip _)) as [g|]; cbn [fst snd w_fs raise ret]; split; try reflexivity;
    apply fs_lookup_write2_l.
Qed.


Lemma download_gz_ok_l url p body en w :
  en.(e_archive) w.(w_tick) url = ArchResp 200 body ->
  exists w1 r, download_gz url p en w = (Ok tt, w1)
    /\ w1.(w_fs) = (p, FileGz body)
                   :: filter (fun e => negb (String.eqb p (fst e))) (handler_emit r w.(w_fs)).
Proof.
  destruct en as [today tmp arch fetch clock up serr asct tb], w as [fs store t tr]; cbn.
  intros H. unfold download_gz. run; [discriminate|eexists; eexists; split; reflexivity].
Qed.

(** The first three stages of [main] chained on two distinct paths,
    after a 200 answer whose body stream completes: a well-formed
    archive yields the records [parse_lines] keeps from its lines, and
    a faulty one stops the chain with the [gzip] module's exception for
    its fault ([EOFError] for a truncated archive, [BadGzipFile] for a
    bad CRC, ...). *)
Theorem download_decompress_parse (url gz idx : string) (body : gz_payload)
  (en : env) (w : world)
  (Hne : gz <> idx)
  (H200 : en.(e_archive) w.(w_tick) url = ArchResp 200 body) :
  fst ((download_gz url gz;;; decompress_gz gz idx;;; parse_idx idx) en w)
  = match body with
    | GzMember lines => Ok (parse_lines lines)
    | GzBroken _ e => Err (ExcGzip e)
    end.
Proof.
  destruct (download_gz_ok_l url gz body en w H200) as [w1 [r0 [E Hfs]]].
  unfold bind. rewrite E.
  pose proof (decompress_gz_cases_l gz idx en w1 idx) as Hd.
  destruct (decompress_gz gz idx en w1) as [r w2].
  rewrite Hfs, fs_lookup_write_l, String.eqb_refl in Hd.
  apply String.eqb_neq in Hne. rewrite Hne in Hd. cbv zeta in Hd.
  destruct body as [lines|written e]; destruct Hd as [-> Hl]; cbn [gunzip fst snd]; [|reflexivity].
  rewrite String.eqb_refl in Hl. unfold parse_idx, bind.
  rewrite read_file_eq. cbn [w_fs]. rewrite Hl. reflexivity.
Qed.

Lemma download_decompress_parse_witness :
  "/tmp/t/m.idx.gz" <> "/tmp/t/m.idx"
  /\ (sample_env 200).(e_archive) empty_world.(w_tick) "u" = ArchResp 200 (GzMember sample_lines)
  /\ fst ((download_gz "u" "/tmp/t/m.idx.gz";;; decompress_gz "/tmp/t/m.idx.gz" "/tmp/t/m.idx";;;
           parse_idx "/tmp/t/m.idx") (sample_env 200) empty_world)
     = Ok (parse_lines sample_lines).
Proof.
  assert (Hne : "/tmp/t/m.idx.gz" <> "/tmp/t/m.idx") by discriminate.
  assert (H200 : (sample_env 200).(e_archive) empty_world.(w_tick) "u"
                 = ArchResp 200 (GzMember sample_lines)) by reflexivity.
  split; [exact Hne|split; [exact H200|]].
  exact (download_decompress_parse "u" _ _ _ (sample_env 200) empty_world Hne H200).
Defined.


Lemma str_app_assoc (a b c : string) : (a ++ b ++ c) = ((a ++ b) ++ c).
Proof. induction a; cbn; congruence. Qed.

Lemma str_app_nil_r (a : string) : (a ++ "") = a.
Proof. induction a; cbn; congruence. Qed.

Lemma substring_all n s : String.length s <= n -> substring 0 n s = s.
Proof.
  revert n. induction s as [|c s IH]; intros [|n] Hn; cbn in *; try reflexivity; try lia.
  rewrite IH by lia. reflexivity.
Qed.

Lemma substring_after a r L :
  String.length r <= L -> substring (String.length a) L (a ++ r) = r.
Proof.
  intros HL. induction a as [|c a IH]; cbn; [apply substring_all, HL|exact IH].
Qed.

Lemma prefix_app a r : String.prefix a (a ++ r) = true.
Proof.
  induction a as [|c a IH]; [destruct r; reflexivity|cbn].
  destruct (ascii_dec c c); [exact IH|congruence].
Qed.

Lemma prefix_split a s : String.prefix a s = true -> exists r, s = (a ++ r).
Proof.
  revert s. induction a as [|c a IH]; intros s H; [exists s; reflexivity|].
  destruct s as [|d s]; cbn in H; [discriminate|].
  destruct (ascii_dec c d) as [<-|]; [|discriminate].
  destruct (IH s H) as [r ->]. exists r. reflexivity.
Qed.

Lemma replace_fuel_S old new f c s :
  PyStr.replace_fuel old new (S f) (String c s)
  = if String.prefix old (String c s)
    then new ++ PyStr.replace_fuel old new f
                  (substring (String.length old) (String.length (String c s)) (String c s))
    else String c (PyStr.replace_fuel old new f s).
Proof. reflexivity. Qed.

Lemma replace_fuel_le old fuel s :
  old <> "" -> String.length (PyStr.replace_fuel old "" fuel s) <= String.length s.
Proof.
  intros Hold. revert s. induction fuel as [|f IH]; intros s; [cbn; lia|].
  destruct s as [|c s]; [cbn; lia|].
  rewrite replace_fuel_S. destruct (String.prefix old (String c s)) eqn:P.
  - destruct (prefix_split _ _ P) as [r Hr]. rewrite Hr.
    rewrite substring_after by (rewrite length_append; lia).
    cbn [String.append]. rewrite length_append. specialize (IH r). lia.
  - cbn [String.length]. specialize (IH s). lia.
Qed.

Lemma replace_fuel_lt old fuel s :
  old <> "" -> String.length s <= fuel -> (exists x y, s = (x ++ old ++ y)) ->
  String.length (PyStr.replace_fuel old "" fuel s) < String.length s.
Proof.
  intros Hold. revert s. induction fuel as [|f IH]; intros s Hf [x [y Hs]].
  - subst s. rewrite !length_append in Hf.
    destruct old; [congruence|cbn in Hf; lia].
  - destruct s as [|c s].
    + destruct x, old; cbn in Hs; congruence.
    + rewrite replace_fuel_S. destruct (String.prefix old (String c s)) eqn:P.
      * destruct (prefix_split _ _ P) as [r Hr]. rewrite Hr.
        rewrite substring_after by (rewrite length_append; lia).
        cbn [String.append]. rewrite length_append.
        pose proof (replace_fuel_le old f r Hold).
        destruct old; [congruence|cbn [String.length]; lia].
      * destruct x as [|d x]; cbn [String.append] in Hs.
        -- rewrite Hs, prefix_app in P. discriminate.
        -- injection Hs as <- Hs. cbn [String.length] in *.
           assert (String.length (PyStr.replace_fuel old "" f s) < String.length s)
             by (apply IH; [lia|exists x, y; exact Hs]).
           lia.
Qed.

Lemma idx_path_differs_l (tmpdir : string) (today : date) :
  let gz_path := os_path_join tmpdir (snd (get_today_idx_url today)) in
  PyStr.replace ".gz" "" gz_path <> gz_path.
Proof.
  cbv zeta. set (gz := os_path_join _ _). intros Heq.
  assert (Hlt : String.length (PyStr.replace ".gz" "" gz) < String.length gz).
  { unfold PyStr.replace. apply replace_fuel_lt; [discriminate|lia|].
    unfold gz, os_path_join, get_today_idx_url. cbn [snd].
    set (m := ("master." ++ strftime_Ymd today ++ ".idx")).
    assert (Hf : ("master." ++ strftime_Ymd today ++ ".idx.gz") = (m ++ ".gz" ++ "")).
    { unfold m. rewrite <- !str_app_assoc. reflexivity. }
    rewrite Hf. destruct (String.eqb _ "/").
    - exists (tmpdir ++ m), "". apply str_app_assoc.
    - exists (tmpdir ++ "/" ++ m), "". rewrite <- !str_app_assoc. reflexivity. }
  rewrite Heq in Hlt. lia.
Qed.

(** [idx_path = gz_path.replace(".gz", "")] in [main] always names a
    file other than [gz_path], whatever the temporary directory and the
    date: the decompression never writes over the archive it reads. *)
Theorem main_idx_path_differs (tmpdir : string) (today : date) :
  let gz_path := os_path_join tmpdir (snd (get_today_idx_url today)) in
  PyStr.replace ".gz" "" gz_path <> gz_path.
Proof. exact (idx_path_differs_l tmpdir today). Qed.

(** The exception the download and the decompression of [main] end in,
    for an answer of the archive server: none for a 200 answer whose
    stream delivers a well-formed archive. *)
Definition index_error (a : archive_resp) : option py_exc :=
  match a with
  | ArchRaise m => Some (ExcRequest m)
  | ArchResp s body =>
      if negb (Z.eqb s 200) then Some (ExcDownload s)
      else match body with
           | GzMember _ => None
           | GzBroken _ e => Some (ExcGzip e)
           end
  | ArchCut s _ m =>
      if negb (Z.eqb s 200) then Some (ExcDownload s) else Some (ExcRequest m)
  end.

Lemma bind_err {A B} (m : M A) (k : A -> M B) en w x :
  fst (m en w) = Err x -> bind m k en w = (Err x, snd (m en w)).
Proof. unfold bind. destruct (m en w) as [[a|y] w1]; cbn; congruence. Qed.

Lemma index_chain_fails_l {A} url gz idx (k : M A) en w x :
  gz <> idx ->
  index_error (en.(e_archive) w.(w_tick) url) = Some x ->
  exists w2, (download_gz url gz;;; decompress_gz gz idx;;; k) en w = (Err x, w2)
             /\ w2.(w_store) = w.(w_store).
Proof.
  intros Hne.
  pose proof (download_gz_result url gz en w) as Hd.
  destruct (e_archive en (w_tick w) url) as [m|s body|s recv m] eqn:Ea; cbn [index_error]; intros Hx.
  - injection Hx as <-. exists (snd (download_gz url gz en w)).
    split; [apply bind_err, Hd|apply download_gz_fixed].
  - destruct (Z.eqb_spec s 200) as [->|Hs]; cbn [negb] in Hx, Hd.
    + destruct body as [lines|written e]; [discriminate|injection Hx as <-].
      destruct (download_gz_ok_l url gz _ en w Ea) as [w1 [r0 [E Hfs]]].
      pose proof (download_gz_fixed url gz en w) as Hs1. rewrite E in Hs1. cbn [snd] in Hs1.
      pose proof (decompress_gz_cases_l gz idx en w1 gz) as Hc.
      rewrite Hfs, fs_lookup_write_l, String.eqb_refl in Hc.
      apply String.eqb_neq in Hne. rewrite Hne in Hc. cbv zeta in Hc.
      pose proof (decompress_gz_fixed gz idx en w1) as Hs2.
      destruct (decompress_gz gz idx en w1) as [r w2] eqn:E2. destruct Hc as [Hr _].
      exists w2. split; [|cbn [snd] in Hs2; congruence].
      unfold bind at 1. rewrite E. cbv beta iota.
      rewrite (bind_err (decompress_gz gz idx) _ en w1 (ExcGzip e)); rewrite E2; [reflexivity|].
      cbn [fst gunzip snd] in Hr |- *. exact Hr.
    + injection Hx as <-. exists (snd (download_gz url gz en w)).
      split; [apply bind_err, Hd|apply download_gz_fixed].
  - destruct (Z.eqb s 200); cbn [negb] in Hx, Hd; injection Hx as <-;
      exists (snd (download_gz url gz en w));
      (split; [apply bind_err, Hd|apply download_gz_fixed]).
Qed.

Lemma handler_emit_text r fs :
  log_text (handler_emit r fs)
  = ((if should_rollover (log_text fs) (r ++ String "010"%char EmptyString) then EmptyString
      else log_text fs) ++ r ++ String "010"%char EmptyString).
Proof.
  unfold handler_emit. cbv zeta.
  destruct (should_rollover (log_text fs) _); reflexivity.
Qed.

Lemma log_record_world lvl msg b en w :
  snd (log_record lvl msg b en w)
  = mkWorld (handler_emit (format_record (en.(e_asctime) (length (w.(w_trace) ++ [EvLog lvl msg])))
                             lvl msg
                             (if b then en.(e_traceback) (length (w.(w_trace) ++ [EvLog lvl msg]))
                              else EmptyString))
                          w.(w_fs))
            w.(w_store) w.(w_tick) (w.(w_trace) ++ [EvLog lvl msg]).
Proof. reflexivity. Qed.

Lemma main_err_l en w x w2 :
  pipeline en w = (Err x, w2) ->
  main en w = log_record ERROR ("Fatal error: " ++ exc_str x) true en w2.
Proof. intros E. unfold main, catch. rewrite E. reflexivity. Qed.

(** When the archive server answers the index request with a
    transport error, a status other than 200, a body stream that breaks,
    or an archive that [gzip] rejects, [main] leaves the collection as it
    was; its last two effects are the removal of the temporary directory
    and the log line [Fatal error: <e>] for the exception raised; and the
    log file then ends with that record as the handler writes it: the
    time stamp, [ERROR: Fatal error: ] and [str(e)], then the traceback
    ([exc_info=True]) and a newline. *)
Theorem main_index_failure (en : env) (w : world) (x : py_exc)
  (Hx : index_error (en.(e_archive) w.(w_tick) (fst (get_today_idx_url en.(e_today)))) = Some x) :
  (snd (main en w)).(w_store) = w.(w_store)
  /\ (exists tr, (snd (main en w)).(w_trace)
                 = (tr ++ [EvTmpCleanup en.(e_tmpdir); EvLog ERROR ("Fatal error: " ++ exc_str x)])%list)
  /\ (exists pre,
        let i := length (snd (main en w)).(w_trace) in
        log_text (snd (main en w)).(w_fs)
        = (pre ++ format_record (en.(e_asctime) i) ERROR ("Fatal error: " ++ exc_str x)
                                (en.(e_traceback) i)
               ++ String "010"%char EmptyString)).
Proof.
  destruct (get_today_idx_url (e_today en)) as [url fname] eqn:Eg. cbn [fst] in Hx.
  pose proof (idx_path_differs_l (e_tmpdir en) (e_today en)) as Hne.
  rewrite Eg in Hne. cbn [snd] in Hne. cbv zeta in Hne.
  assert (HP : exists w2, pipeline en w = (Err x, w2) /\ w2.(w_store) = w.(w_store)
                          /\ exists tr, w2.(w_trace) = (tr ++ [EvTmpCleanup (e_tmpdir en)])%list).
  { unfold pipeline. unfold bind at 1. unfold ask. rewrite Eg.
    unfold with_tmpdir. cbn [emit].
    match goal with
    | |- context [bind (download_gz ?u ?g) (fun _ => bind (decompress_gz ?g ?i) (fun _ => ?k)) en ?w1] =>
        destruct (index_chain_fails_l u g i k en w1 x (not_eq_sym Hne) Hx) as [w2 [E Hs]];
        rewrite E
    end.
    eexists; split; [reflexivity|]. cbn [w_store w_trace]. split; [exact Hs|eexists; reflexivity]. }
  destruct HP as (w2 & Ep & Hs & tr & Ht).
  rewrite (main_err_l en w x w2 Ep), log_record_world. cbn [w_store w_trace w_fs].
  split; [exact Hs|split].
  - exists tr. rewrite Ht, <- app_assoc. reflexivity.
  - rewrite handler_emit_text. eexists. cbv zeta. reflexivity.
Qed.

Lemma main_index_failure_witness :
  index_error ((sample_env 404).(e_archive) empty_world.(w_tick)
                 (fst (get_today_idx_url (sample_env 404).(e_today)))) = Some (ExcDownload 404)
  /\ (snd (main (sample_env 404) empty_world)).(w_store) = empty_world.(w_store).
Proof.
  assert (Hx : index_error ((sample_env 404).(e_archive) empty_world.(w_tick)
                 (fst (get_today_idx_url (sample_env 404).(e_today)))) = Some (ExcDownload 404))
    by reflexivity.
  split; [exact Hx|].
  exact (proj1 (main_index_failure (sample_env 404) empty_world _ Hx)).
Defined.

(* ------------------------------------------------------------------ *)
(** ** Lines of the index that [parse_idx] keeps *)

Fixpoint lstripL (l : list ascii) : list ascii :=
  match l with
  | [] => []
  | c :: l' => if PyStr.is_space c then lstripL l' else l
  end.

(** [rstrip] read from the left: what is kept of [String c s]. *)
Fixpoint rstrip_alt (s : string) : string :=
  match s with
  | EmptyString => EmptyString
  | String c s' =>
      match rstrip_alt s' with
      | EmptyString => if PyStr.is_space c then EmptyString else String c EmptyString
      | r => String c r
      end
  end.

Lemma lstrip_list l :
  list_ascii_of_string (PyStr.lstrip (string_of_list_ascii l)) = lstripL l.
Proof.
  induction l as [|c l IH]; cbn; [reflexivity|].
  destruct (PyStr.is_space c); [exact IH|].
  cbn. rewrite list_ascii_of_string_of_list_ascii. reflexivity.
Qed.

Lemma lstripL_snoc m c :
  lstripL (m ++ [c])%list
  = match lstripL m with
    | [] => if PyStr.is_space c then [] else [c]
    | l => (l ++ [c])%list
    end.
Proof.
  induction m as [|a m IH]; cbn; [reflexivity|].
  destruct (PyStr.is_space a); [exact IH|reflexivity].
Qed.

Lemma rstrip_alt_eq s : PyStr.rstrip s = rstrip_alt s.
Proof.
  unfold PyStr.rstrip. rewrite lstrip_list.
  induction s as [|c s IH]; cbn [list_ascii_of_string rev rstrip_alt]; [reflexivity|].
  rewrite lstripL_snoc. rewrite <- IH.
  destruct (lstripL (rev (list_ascii_of_string s))) as [|x xs]; cbn [rev string_of_list_ascii].
  - destruct (PyStr.is_space c); reflexivity.
  - rewrite rev_app_distr. cbn [rev app string_of_list_ascii].
    destruct (rev xs); reflexivity.
Qed.

Lemma rstrip_alt_app u v :
  rstrip_alt (u ++ v) = match rstrip_alt v with EmptyString => rstrip_alt u | r => u ++ r end.
Proof.
  induction u as [|c u IH]; cbn [String.append rstrip_alt].
  - destruct (rstrip_alt v); reflexivity.
  - rewrite IH. destruct (rstrip_alt v) eqn:E; [reflexivity|].
    destruct u; reflexivity.
Qed.

Lemma lstrip_length s : String.length (PyStr.lstrip s) <= String.length s.
Proof. induction s as [|c s IH]; cbn; [lia|destruct (PyStr.is_space c); cbn; lia]. Qed.

Lemma rstrip_alt_length s : String.length (rstrip_alt s) <= String.length s.
Proof.
  induction s as [|c s IH]; cbn; [lia|].
  destruct (rstrip_alt s); [destruct (PyStr.is_space c)|]; cbn in *; lia.
Qed.

Lemma strip_fixed x :
  PyStr.strip x = x -> PyStr.lstrip x = x /\ rstrip_alt x = x.
Proof.
  unfold PyStr.strip. rewrite rstrip_alt_eq. intros H.
  assert (Hl : PyStr.lstrip x = x).
  { destruct x as [|c x']; [reflexivity|]. cbn in H |- *.
    destruct (PyStr.is_space c); [|reflexivity].
    pose proof (rstrip_alt_length (PyStr.lstrip x')).
    pose proof (lstrip_length x'). rewrite H in *. cbn in *. lia. }
  rewrite Hl in H. split; assumption.
Qed.

Lemma lstrip_fixed_app x c r :
  PyStr.lstrip x = x -> PyStr.is_space c = false ->
  PyStr.lstrip (x ++ String c r) = (x ++ String c r).
Proof.
  intros Hx Hc. destruct x as [|d x']; cbn in *; [rewrite Hc; reflexivity|].
  destruct (PyStr.is_space d) eqn:Hd; [|reflexivity].
  pose proof (lstrip_length x'). rewrite Hx in *. cbn in *. lia.
Qed.

Lemma rstrip_alt_blank nl : PyStr.lstrip nl = "" -> rstrip_alt nl = "".
Proof.
  induction nl as [|c nl IH]; cbn; [reflexivity|].
  destruct (PyStr.is_space c); [|discriminate].
  intros H. rewrite (IH H). reflexivity.
Qed.

Lemma split_app_sep c a b :
  PyStr.contains c a = false -> PyStr.split c (a ++ String c b) = a :: PyStr.split c b.
Proof.
  induction a as [|d a IH]; cbn; intros H.
  - rewrite Ascii.eqb_refl. reflexivity.
  - apply Bool.orb_false_elim in H as [H1 H2]. rewrite IH by exact H2.
    rewrite Ascii.eqb_sym, H1. reflexivity.
Qed.

Lemma split_no_sep c a : PyStr.contains c a = false -> PyStr.split c a = [a].
Proof.
  induction a as [|d a IH]; cbn; intros H; [reflexivity|].
  apply Bool.orb_false_elim in H as [H1 H2]. rewrite IH by exact H2.
  rewrite Ascii.eqb_sym, H1. reflexivity.
Qed.

Lemma contains_app_sep c a b : PyStr.contains c (a ++ String c b) = true.
Proof.
  induction a as [|d a IH]; cbn; [rewrite Ascii.eqb_refl; reflexivity|].
  rewrite IH. apply Bool.orb_true_r.
Qed.

(** Formatting five fields as a line of the index and parsing it back
    gives them back: when no field holds a pipe or surrounding
    whitespace, the form type is one of [TARGET_FORMS] and the line ends
    in whitespace only (its newline), [parse_idx] keeps the line as the
    record of exactly these fields, with the accession taken from the
    file name and the URL under the archives root. *)
Theorem parse_idx_line_roundtrip (cik company form date_filed filename nl : string)
  (Hpipe : Forall (fun x => PyStr.contains PIPE x = false)
                  [cik; company; form; date_filed; filename])
  (Htrim : Forall (fun x => PyStr.strip x = x) [cik; company; form; date_filed; filename])
  (Hform : in_target_forms form = true)
  (Hnl : PyStr.lstrip nl = "") :
  parse_lines [cik ++ "|" ++ company ++ "|" ++ form ++ "|" ++ date_filed ++ "|" ++ filename ++ nl]
  = [mkFiling cik company form date_filed
       (PyStr.replace ".txt" "" (PyStr.last_item (PyStr.split SLASH filename)))
       (ARCHIVES_ROOT ++ filename) None None].
Proof.
  inversion Hpipe as [|? ? P1 Hp1]; inversion Hp1 as [|? ? P2 Hp2];
    inversion Hp2 as [|? ? P3 Hp3]; inversion Hp3 as [|? ? P4 Hp4];
    inversion Hp4 as [|? ? P5 _]; subst.
  inversion Htrim as [|? ? T1 Ht1]; inversion Ht1 as [|? ? T2 Ht2];
    inversion Ht2 as [|? ? T3 Ht3]; inversion Ht3 as [|? ? T4 Ht4];
    inversion Ht4 as [|? ? T5 _]; subst.
  destruct (strip_fixed _ T1) as [L1 _]. destruct (strip_fixed _ T5) as [_ R5].
  change (cik ++ "|" ++ company ++ "|" ++ form ++ "|" ++ date_filed ++ "|" ++ filename ++ nl)
    with (cik ++ String PIPE (company ++ String PIPE (form ++ String PIPE
            (date_filed ++ String PIPE (filename ++ nl))))).
  assert (Hline : (cik ++ String PIPE (company ++ String PIPE (form ++ String PIPE
                     (date_filed ++ String PIPE (filename ++ nl)))))
                  = ((cik ++ String PIPE (company ++ String PIPE (form ++ String PIPE date_filed)))
                     ++ (String PIPE filename ++ nl))).
  { repeat first [rewrite <- str_app_assoc | progress cbn [String.append]]. reflexivity. }
  assert (Hs : PyStr.strip (cik ++ String PIPE (company ++ String PIPE (form ++ String PIPE
                 (date_filed ++ String PIPE (filename ++ nl)))))
               = (cik ++ String PIPE (company ++ String PIPE (form ++ String PIPE
                   (date_filed ++ String PIPE filename))))).
  { unfold PyStr.strip.
    rewrite (lstrip_fixed_app cik PIPE) by (exact L1 || reflexivity). rewrite Hline.
    rewrite rstrip_alt_eq, rstrip_alt_app, (rstrip_alt_app (String PIPE filename) nl),
      (rstrip_alt_blank nl Hnl).
    cbn [rstrip_alt]. rewrite R5.
    destruct filename; cbv beta iota;
      try (replace (PyStr.is_space PIPE) with false by reflexivity);
      repeat first [rewrite <- str_app_assoc | progress cbn [String.append]]; reflexivity. }
  cbn [parse_lines]. unfold parse_line.
  rewrite Hs, contains_app_sep.
  rewrite !split_app_sep, split_no_sep by assumption.
  cbn [map]. rewrite T1, T2, T3, T4, T5, Hform. reflexivity.
Qed.

Lemma parse_idx_line_roundtrip_witness :
  Forall (fun x => PyStr.contains PIPE x = false)
         ["0001"; "Acme Co"; "10-K"; "2024-01-05"; "edgar/data/1/acme-10k.txt"]
  /\ Forall (fun x => PyStr.strip x = x)
            ["0001"; "Acme Co"; "10-K"; "2024-01-05"; "edgar/data/1/acme-10k.txt"]
  /\ in_target_forms "10-K" = true
  /\ PyStr.lstrip (String "010"%char EmptyString) = ""
  /\ parse_lines ["0001" ++ "|" ++ "Acme Co" ++ "|" ++ "10-K" ++ "|" ++ "2024-01-05" ++ "|"
                  ++ "edgar/data/1/acme-10k.txt" ++ String "010"%char EmptyString]
     = [mkFiling "0001" "Acme Co" "10-K" "2024-01-05"
          (PyStr.replace ".txt" "" (PyStr.last_item (PyStr.split SLASH "edgar/data/1/acme-10k.txt")))
          (ARCHIVES_ROOT ++ "edgar/data/1/acme-10k.txt") None None].
Proof.
  assert (Hp : Forall (fun x => PyStr.contains PIPE x = false)
         ["0001"; "Acme Co"; "10-K"; "2024-01-05"; "edgar/data/1/acme-10k.txt"])
    by (repeat constructor).
  assert (Ht : Forall (fun x => PyStr.strip x = x)
            ["0001"; "Acme Co"; "10-K"; "2024-01-05"; "edgar/data/1/acme-10k.txt"])
    by (repeat constructor).
  assert (Hf : in_target_forms "10-K" = true) by reflexivity.
  assert (Hn : PyStr.lstrip (String "010"%char EmptyString) = "") by reflexivity.
  split; [exact Hp|split; [exact Ht|split; [exact Hf|split; [exact Hn|]]]].
  exact (parse_idx_line_roundtrip _ _ _ _ _ _ Hp Ht Hf Hn).
Defined.

Lemma str_app_inv_l (p a b : string) : (p ++ a) = (p ++ b) -> a = b.
Proof.
  induction p as [|c p IH]; intros H; [exact H|].
  apply IH. cbn in H. injection H as H. exact H.
Qed.

Lemma contains_app c a b :
  PyStr.contains c (a ++ b) = PyStr.contains c a || PyStr.contains c b.
Proof. induction a as [|d a IH]; cbn; [reflexivity|rewrite IH, Bool.orb_assoc; reflexivity]. Qed.

Lemma split_app_any c x y :
  exists pre, PyStr.split c (x ++ String c y) = (pre ++ PyStr.split c y)%list /\ pre <> [].
Proof.
  induction x as [|d x [pre [IH Hpre]]]; cbn.
  - rewrite Ascii.eqb_refl. exists [""]. split; [reflexivity|discriminate].
  - rewrite IH. destruct (Ascii.eqb d c).
    + exists ("" :: pre). split; [reflexivity|discriminate].
    + destruct pre as [|p0 ps]; [congruence|].
      exists (String d p0 :: ps). split; [reflexivity|discriminate].
Qed.

Lemma split_nonempty c s : PyStr.split c s <> [].
Proof.
  destruct s as [|d s]; cbn; [discriminate|].
  destruct (Ascii.eqb d c); [discriminate|destruct (PyStr.split c s); discriminate].
Qed.

Lemma last_app_nonempty {A} (l m : list A) (d : A) : m <> [] -> last (l ++ m)%list d = last m d.
Proof.
  intros Hm. induction l as [|a l IH]; [reflexivity|].
  cbn [app]. rewrite <- IH.
  destruct (l ++ m)%list eqn:E; [apply app_eq_nil in E; destruct E; congruence|reflexivity].
Qed.

Lemma replace_txt_suffix acc fuel :
  PyStr.contains "."%char acc = false -> String.length (acc ++ ".txt") <= fuel ->
  PyStr.replace_fuel ".txt" "" fuel (acc ++ ".txt") = acc.
Proof.
  revert fuel. induction acc as [|d acc IH]; intros [|f] Hd Hf; cbn in Hf; try lia.
  - cbn. destruct f; reflexivity.
  - cbn [PyStr.contains] in Hd. apply Bool.orb_false_elim in Hd as [Hd1 Hd2].
    cbn [String.append]. rewrite replace_fuel_S.
    replace (String.prefix ".txt" (String d (acc ++ ".txt"))) with false.
    + rewrite IH by (assumption || lia). reflexivity.
    + cbn [String.prefix]. destruct (ascii_dec "." d) as [<-|]; [|reflexivity].
      rewrite Ascii.eqb_refl in Hd1. discriminate.
Qed.

(** For a standard EDGAR file name, a directory followed by
    [<acc>.txt] where [acc] holds neither a dot nor a slash, the record
    [parse_idx] builds has accession exactly [acc]. *)
Theorem parse_idx_standard_accession (lines : list string) (f : filing) (dir acc : string)
  (Hin : In f (parse_lines lines))
  (Hurl : f.(file_url) = ARCHIVES_ROOT ++ dir ++ "/" ++ acc ++ ".txt")
  (Hdot : PyStr.contains "."%char acc = false)
  (Hslash : PyStr.contains SLASH acc = false) :
  f.(accession) = acc.
Proof.
  destruct (proj1 (Forall_forall _ _) (proj1 (parse_lines_shape_l lines)) f Hin)
    as (_ & _ & _ & fn & Hfn & Hacc).
  rewrite Hurl in Hfn. apply str_app_inv_l in Hfn. rewrite Hacc, <- Hfn.
  change ("/" ++ acc ++ ".txt") with (String SLASH (acc ++ ".txt")).
  destruct (split_app_any SLASH dir (acc ++ ".txt")) as [pre [-> _]].
  unfold PyStr.last_item. rewrite last_app_nonempty by apply split_nonempty.
  rewrite split_no_sep by (rewrite contains_app, Hslash; reflexivity).
  cbn [last]. unfold PyStr.replace. apply replace_txt_suffix; [exact Hdot|lia].
Qed.

Lemma parse_idx_standard_accession_witness :
  In (mkFiling "0001" "Acme Co" "10-K" "2024-01-05" "0000001-24-000001"
        (ARCHIVES_ROOT ++ "edgar/data/1" ++ "/" ++ "0000001-24-000001" ++ ".txt") None None)
     (parse_lines ["0001|Acme Co|10-K|2024-01-05|edgar/data/1/0000001-24-000001.txt"])
  /\ accession (mkFiling "0001" "Acme Co" "10-K" "2024-01-05" "0000001-24-000001"
        (ARCHIVES_ROOT ++ "edgar/data/1" ++ "/" ++ "0000001-24-000001" ++ ".txt") None None)
     = "0000001-24-000001".
Proof.
  assert (Hin : In (mkFiling "0001" "Acme Co" "10-K" "2024-01-05" "0000001-24-000001"
        (ARCHIVES_ROOT ++ "edgar/data/1" ++ "/" ++ "0000001-24-000001" ++ ".txt") None None)
     (parse_lines ["0001|Acme Co|10-K|2024-01-05|edgar/data/1/0000001-24-000001.txt"]))
    by (left; vm_compute; reflexivity).
  split; [exact Hin|].
  exact (parse_idx_standard_accession _ _ "edgar/data/1" "0000001-24-000001" Hin eq_refl
           eq_refl eq_refl).
Defined.

Lemma download_gz_file_effect_l (url dest : string) (en : env) (w : world) (q : string)
  (Hq : is_log_path q = false) :
  let '(r, w') := download_gz url dest en w in
  match en.(e_archive) w.(w_tick) url with
  | ArchResp s body =>
      if Z.eqb s 200
      then r = Ok tt /\ fs_lookup q w'.(w_fs)
                        = if String.eqb q dest then Some (FileGz body) else fs_lookup q w.(w_fs)
      else r = Err (ExcDownload s) /\ fs_lookup q w'.(w_fs) = fs_lookup q w.(w_fs)
  | ArchCut s received m =>
      if Z.eqb s 200
      then r = Err (ExcRequest m)
           /\ fs_lookup q w'.(w_fs)
              = if String.eqb q dest then Some (FileGz received) else fs_lookup q w.(w_fs)
      else r = Err (ExcDownload s) /\ fs_lookup q w'.(w_fs) = fs_lookup q w.(w_fs)
  | ArchRaise m => r = Err (ExcRequest m) /\ fs_lookup q w'.(w_fs) = fs_lookup q w.(w_fs)
  end.
Proof.
  destruct en as [today tmp arch fetch clock up serr asct tb], w as [fs store t tr];
    cbn [e_archive w_tick w_fs].
  cbv beta iota zeta delta [download_gz http_get_stream bind ret raise ask emit next_tick log
    log_record write_file fst snd w_fs w_store w_tick w_trace e_archive].
  destruct (arch t url) as [m|s body|s received m]; cbv beta iota; cbn [fst snd];
    [|destruct (Z.eqb_spec s 200) as [->|Hs]; cbn [negb]..];
    cbv beta iota; cbn [fst snd w_fs]; (split; [reflexivity|]);
    first [ apply handler_emit_other, Hq
          | rewrite fs_lookup_write_l; destruct (String.eqb q dest);
            [reflexivity|apply handler_emit_other, Hq] ].
Qed.

(** What [download_gz url dest] does to the local files other than
    the log file and its backups. A 200 answer truncates [dest] and
    writes into it what the body stream delivers: the whole archive
    when the stream completes (and the call returns), the part received
    when it breaks (and the stream's exception is raised). On a
    transport error before the answer, or any other status, no such
    file changes. *)
Theorem download_gz_file_effect (url dest : string) (en : env) (w : world) (q : string)
  (Hq : is_log_path q = false) :
  let '(r, w') := download_gz url dest en w in
  match en.(e_archive) w.(w_tick) url with
  | ArchResp s body =>
      if Z.eqb s 200
      then r = Ok tt /\ fs_lookup q w'.(w_fs)
                        = if String.eqb q dest then Some (FileGz body) else fs_lookup q w.(w_fs)
      else r = Err (ExcDownload s) /\ fs_lookup q w'.(w_fs) = fs_lookup q w.(w_fs)
  | ArchCut s received m =>
      if Z.eqb s 200
      then r = Err (ExcRequest m)
           /\ fs_lookup q w'.(w_fs)
              = if String.eqb q dest then Some (FileGz received) else fs_lookup q w.(w_fs)
      else r = Err (ExcDownload s) /\ fs_lookup q w'.(w_fs) = fs_lookup q w.(w_fs)
  | ArchRaise m => r = Err (ExcRequest m) /\ fs_lookup q w'.(w_fs) = fs_lookup q w.(w_fs)
  end.
Proof. exact (download_gz_file_effect_l url dest en w q Hq). Qed.

Lemma download_gz_file_effect_witness :
  is_log_path "/tmp/t/m.idx.gz" = false
  /\ fs_lookup "/tmp/t/m.idx.gz"
       (snd (download_gz "u" "/tmp/t/m.idx.gz"
               (mkEnv (mkDate 2024 1 5) "/tmp/t"
                      (fun _ _ => ArchCut 200 (GzBroken ["CIK|"] GzTruncated) "Connection reset")
                      (fun _ _ => HttpResp 200 "") (fun t => Z.of_nat t) (fun _ => true)
                      (fun _ => "") (fun _ => "") (fun _ => ""))
               empty_world)).(w_fs)
     = Some (FileGz (GzBroken ["CIK|"] GzTruncated)).
Proof.
  assert (Hq : is_log_path "/tmp/t/m.idx.gz" = false) by reflexivity.
  split; [exact Hq|].
  pose proof (download_gz_file_effect "u" "/tmp/t/m.idx.gz"
               (mkEnv (mkDate 2024 1 5) "/tmp/t"
                      (fun _ _ => ArchCut 200 (GzBroken ["CIK|"] GzTruncated) "Connection reset")
                      (fun _ _ => HttpResp 200 "") (fun t => Z.of_nat t) (fun _ => true)
                      (fun _ => "") (fun _ => "") (fun _ => ""))
               empty_world "/tmp/t/m.idx.gz" Hq) as H.
  destruct (download_gz _ _ _ _) as [r w'] eqn:E. cbn [snd].
  cbn [e_archive w_tick empty_world] in H. destruct H as [_ H]. rewrite H. reflexivity.
Defined.

(* ------------------------------------------------------------------ *)
(** ** The counts [main] logs *)

Definition TraceGrows {A} (m : M A) : Prop :=
  forall en w, exists tr, (snd (m en w)).(w_trace) = (w.(w_trace) ++ tr)%list.

Lemma insert_unique_trace f : TraceGrows (insert_unique f).
Proof.
  intros [today tmp arch fetch clock up serr asct tb] [fs store t tr].
  unfold insert_unique, fetch_filing_text.
  run; first [exists []; symmetry; apply app_nil_r | trace_prefix].
Qed.

Lemma insert_all_trace l n : TraceGrows (insert_all l n).
Proof.
  revert n. induction l as [|f l IH]; intros n en w; cbn.
  - exists []. rewrite app_nil_r. reflexivity.
  - unfold bind. destruct (insert_unique_trace f en w) as [tr1 E1].
    destruct (insert_unique f en w) as [[r|x] w1]; cbn in E1 |- *.
    + destruct (IH (if fst r then S n else n) en w1) as [tr2 E2].
      exists (tr1 ++ tr2)%list. rewrite E2, E1, app_assoc. reflexivity.
    + exists tr1. exact E1.
Qed.

Lemma bind_ok {A B} (m : M A) (k : A -> M B) en w a w1 :
  m en w = (Ok a, w1) -> bind m k en w = k a en w1.
Proof. unfold bind. intros ->. reflexivity. Qed.

Lemma index_chain_ok_l {A} url gz idx (k : list filing -> M A) en w lines :
  gz <> idx ->
  en.(e_archive) w.(w_tick) url = ArchResp 200 (GzMember lines) ->
  exists w3,
    (download_gz url gz;;; decompress_gz gz idx;;; filings <- parse_idx idx;; k filings) en w
    = k (parse_lines lines) en w3
    /\ w3.(w_store) = w.(w_store).
Proof.
  intros Hne H200.
  destruct (download_gz_ok_l url gz _ en w H200) as [w1 [r0 [E1 Hfs]]].
  pose proof (download_gz_fixed url gz en w) as S1. rewrite E1 in S1. cbn [snd] in S1.
  rewrite (bind_ok _ _ _ _ _ _ E1).
  pose proof (decompress_gz_cases_l gz idx en w1 idx) as Hd.
  pose proof (decompress_gz_fixed gz idx en w1) as S2.
  destruct (decompress_gz gz idx en w1) as [r w2] eqn:E2. cbn [snd] in S2.
  rewrite Hfs, fs_lookup_write_l, !String.eqb_refl in Hd.
  apply String.eqb_neq in Hne. rewrite Hne in Hd. cbv zeta in Hd. cbn [gunzip fst snd] in Hd.
  destruct Hd as [-> Hl].
  rewrite (bind_ok _ _ _ _ _ _ E2).
  assert (E3 : parse_idx idx en w2
               = (Ok (parse_lines lines),
                  mkWorld w2.(w_fs) w2.(w_store) w2.(w_tick) (w2.(w_trace) ++ [EvOpen idx]))).
  { unfold parse_idx. rewrite (bind_ok _ _ _ _ (FileText lines) _ (eq_trans (read_file_eq idx en w2)
      (f_equal (fun o => (o, _)) (f_equal (fun o => match o with Some d => Ok d | None => Err (ExcOS idx) end) Hl)))).
    reflexivity. }
  rewrite (bind_ok _ _ _ _ _ _ E3).
  eexists. split; [reflexivity|]. cbn. congruence.
Qed.

(** On a day whose index comes back with status 200 and a well-formed
    archive, [main] logs [Parsed N filings] with [N] the number of
    records [parse_idx] keeps from the archive's lines; then either its
    loop completes, the log line [Inserted k new filings into MongoDB]
    follows, and [k] is the number of documents added to the
    collection, or an insert fails and [main] ends with the [Fatal
    error] log line. *)
Theorem main_logs_counts (en : env) (w : world) (lines : list string)
  (H200 : en.(e_archive) w.(w_tick) (fst (get_today_idx_url en.(e_today)))
          = ArchResp 200 (GzMember lines)) :
  let w' := snd (main en w) in
  (exists tr1 tr2, w'.(w_trace)
     = (tr1 ++ EvLog INFO ("Parsed " ++ PyStr.str_nat (length (parse_lines lines)) ++ " filings")
              :: tr2)%list)
  /\ ((exists tr3, w'.(w_trace)
         = (tr3 ++ [EvLog INFO ("Inserted "
                                ++ PyStr.str_nat (length w'.(w_store) - length w.(w_store))
                                ++ " new filings into MongoDB");
                    EvTmpCleanup en.(e_tmpdir)])%list)
      \/ (exists x tr3, w'.(w_trace)
            = (tr3 ++ [EvTmpCleanup en.(e_tmpdir); EvLog ERROR ("Fatal error: " ++ exc_str x)])%list)).
Proof.
  destruct (get_today_idx_url (e_today en)) as [url fname] eqn:Eg. cbn [fst] in H200.
  pose proof (idx_path_differs_l (e_tmpdir en) (e_today en)) as Hne.
  rewrite Eg in Hne. cbn [snd] in Hne. cbv zeta in Hne.
  cbv zeta. remember (main en w) as R eqn:HR.
  unfold main, catch, pipeline in HR. unfold bind at 1 in HR. unfold ask in HR. rewrite Eg in HR.
  unfold with_tmpdir in HR. cbn [emit] in HR.
  match type of HR with
  | context [bind (download_gz ?u ?g) (fun _ => bind (decompress_gz ?g ?i) (fun _ =>
               bind (parse_idx ?i) ?k)) en ?w1] =>
      destruct (index_chain_ok_l u g i k en w1 lines (not_eq_sym Hne) H200) as [w3 [E Hs3]];
      rewrite E in HR
  end.
  rewrite (bind_ok (log INFO _) _ en w3 tt _ eq_refl) in HR.
  match type of HR with
  | context [bind (insert_all ?l 0) ?k2 en ?w4] =>
      pose proof (insert_all_trace l 0 en w4) as [tr4 T4];
      pose proof (insert_all_counts_l l 0) as Hc;
      unfold bind at 1 in HR;
      destruct (insert_all l 0 en w4) as [[n|x] w5] eqn:E5
  end; cbn [snd w_trace w_store] in T4, Hs3; subst R.
  all: cbv beta iota zeta delta [log log_record emit bind]; cbn [snd fst w_trace w_store].
  - specialize (Hc n en _ w5 E5). cbn [w_store] in Hc. rewrite Hs3 in Hc. split.
    + rewrite T4.
      exists (w_trace w3),
        (tr4 ++ [EvLog INFO ("Inserted " ++ PyStr.str_nat n ++ " new filings into MongoDB");
                 EvTmpCleanup (e_tmpdir en)])%list.
      rewrite <- !app_assoc. reflexivity.
    + left. exists (w_trace w5). rewrite <- app_assoc.
      replace (length (w_store w5) - length (w_store w)) with n by lia.
      reflexivity.
  - split.
    + rewrite T4.
      exists (w_trace w3),
        (tr4 ++ [EvTmpCleanup (e_tmpdir en); EvLog ERROR ("Fatal error: " ++ exc_str x)])%list.
      rewrite <- !app_assoc. reflexivity.
    + right. exists x, (w_trace w5). rewrite <- app_assoc. reflexivity.
Qed.

Lemma main_logs_counts_witness :
  (sample_env 200).(e_archive) empty_world.(w_tick)
     (fst (get_today_idx_url (sample_env 200).(e_today))) = ArchResp 200 (GzMember sample_lines)
  /\ exists tr1 tr2, (snd (main (sample_env 200) empty_world)).(w_trace)
       = (tr1 ++ EvLog INFO ("Parsed " ++ PyStr.str_nat (length (parse_lines sample_lines))
                              ++ " filings") :: tr2)%list.
Proof.
  assert (H : (sample_env 200).(e_archive) empty_world.(w_tick)
                (fst (get_today_idx_url (sample_env 200).(e_today)))
              = ArchResp 200 (GzMember sample_lines)) by reflexivity.
  split; [exact H|].
  exact (proj1 (main_logs_counts (sample_env 200) empty_world sample_lines H)).
Defined.

Lemma insert_unique_total_l f en w :
  (forall t, en.(e_store_up) t = true) ->
  exists r w', insert_unique f en w = (Ok r, w').
Proof.
  destruct en as [today tmp arch fetch clock up serr asct tb], w as [fs store t tr]. cbn. intros Hup.
  unfold insert_unique, fetch_filing_text.
  run; try (rewrite Hup in *; discriminate); eexists _, _; reflexivity.
Qed.

Lemma insert_all_completes_when_store_up_l (l : list filing) (n : nat) (en : env) (w : world)
  (Hup : forall t, en.(e_store_up) t = true) :
  exists k w', insert_all l n en w = (Ok k, w').
Proof.
  revert n w. induction l as [|f l IH]; intros n w; cbn.
  - eexists _, _. reflexivity.
  - destruct (insert_unique_total_l f en w Hup) as [r [w1 E]].
    rewrite (bind_ok _ _ _ _ _ _ E). apply IH.
Qed.

(** While the collection stays reachable, the loop of [main] over the
    parsed records always runs to its end and returns its count: a text
    fetch that fails, answers another status or returns an empty body
    only skips its record. *)
Theorem insert_all_completes_when_store_up (l : list filing) (n : nat) (en : env) (w : world)
  (Hup : forall t, en.(e_store_up) t = true) :
  exists k w', insert_all l n en w = (Ok k, w').
Proof. exact (insert_all_completes_when_store_up_l l n en w Hup). Qed.

Lemma insert_all_completes_when_store_up_witness :
  (forall t, (sample_env 200).(e_store_up) t = true)
  /\ exists k w', insert_all [acme_filing] 0 (sample_env 200) empty_world = (Ok k, w').
Proof.
  assert (Hup : forall t, (sample_env 200).(e_store_up) t = true) by reflexivity.
  split; [exact Hup|].
  exact (insert_all_completes_when_store_up [acme_filing] 0 _ empty_world Hup).
Defined.

(** When the collection stays reachable and the index comes back with
    status 200 and a well-formed archive, [main] runs to the end of its
    [try] block: its last effects are the log line
    [Inserted k new filings into MongoDB], with [k] the number of
    documents added to the collection, and the removal of the temporary
    directory. *)
Theorem main_completes_when_store_up (en : env) (w : world) (lines : list string)
  (H200 : en.(e_archive) w.(w_tick) (fst (get_today_idx_url en.(e_today)))
          = ArchResp 200 (GzMember lines))
  (Hup : forall t, en.(e_store_up) t = true) :
  let w' := snd (main en w) in
  exists tr, w'.(w_trace)
    = (tr ++ [EvLog INFO ("Inserted "
                          ++ PyStr.str_nat (length w'.(w_store) - length w.(w_store))
                          ++ " new filings into MongoDB");
              EvTmpCleanup en.(e_tmpdir)])%list.
Proof.
  destruct (get_today_idx_url (e_today en)) as [url fname] eqn:Eg. cbn [fst] in H200.
  pose proof (idx_path_differs_l (e_tmpdir en) (e_today en)) as Hne.
  rewrite Eg in Hne. cbn [snd] in Hne. cbv zeta in Hne.
  cbv zeta. remember (main en w) as R eqn:HR.
  unfold main, catch, pipeline in HR. unfold bind at 1 in HR. unfold ask in HR. rewrite Eg in HR.
  unfold with_tmpdir in HR. cbn [emit] in HR.
  match type of HR with
  | context [bind (download_gz ?u ?g) (fun _ => bind (decompress_gz ?g ?i) (fun _ =>
               bind (parse_idx ?i) ?k)) en ?w1] =>
      destruct (index_chain_ok_l u g i k en w1 lines (not_eq_sym Hne) H200) as [w3 [E Hs3]];
      rewrite E in HR
  end.
  rewrite (bind_ok (log INFO _) _ en w3 tt _ eq_refl) in HR.
  match type of HR with
  | context [bind (insert_all ?l 0) ?k2 en ?w4] =>
      destruct (insert_all_completes_when_store_up_l l 0 en w4 Hup) as [n [w5 E5]];
      pose proof (insert_all_counts_l l 0 n en w4 w5 E5) as Hc;
      rewrite (bind_ok _ _ _ _ _ _ E5) in HR
  end.
  cbn [snd w_store] in Hc, Hs3. rewrite Hs3 in Hc. subst R.
  cbv beta iota zeta delta [log log_record emit bind]; cbn [snd fst w_trace w_store].
  exists (w_trace w5). rewrite <- app_assoc.
  replace (length (w_store w5) - length (w_store w)) with n by lia.
  reflexivity.
Qed.

Lemma main_completes_when_store_up_witness :
  (sample_env 200).(e_archive) empty_world.(w_tick)
     (fst (get_today_idx_url (sample_env 200).(e_today))) = ArchResp 200 (GzMember sample_lines)
  /\ (forall t, (sample_env 200).(e_store_up) t = true)
  /\ exists tr, (snd (main (sample_env 200) empty_world)).(w_trace)
       = (tr ++ [EvLog INFO ("Inserted "
                  ++ PyStr.str_nat (length (snd (main (sample_env 200) empty_world)).(w_store)
                                    - length empty_world.(w_store))
                  ++ " new filings into MongoDB");
                 EvTmpCleanup (sample_env 200).(e_tmpdir)])%list.
Proof.
  assert (H : (sample_env 200).(e_archive) empty_world.(w_tick)
                (fst (get_today_idx_url (sample_env 200).(e_today)))
              = ArchResp 200 (GzMember sample_lines)) by reflexivity.
  assert (Hup : forall t, (sample_env 200).(e_store_up) t = true) by reflexivity.
  split; [exact H|split; [exact Hup|]].
  exact (main_completes_when_store_up (sample_env 200) empty_world sample_lines H Hup).
Defined.

(* ------------------------------------------------------------------ *)
(** ** Files outside the temporary directory *)

Lemma str_nat_digits n : all_digits (PyStr.str_nat n) = true.
Proof. exact (proj1 (str_nat_fuel_spec (S n) n (Nat.lt_succ_diag_r n))). Qed.

Lemma strftime_digits d : all_digits (strftime_Ymd d) = true.
Proof.
  unfold strftime_Ymd, PyStr.zpad. rewrite !all_digits_app, !str_nat_digits.
  rewrite !(proj1 (proj2 (zeros_spec _))). reflexivity.
Qed.

Lemma digits_no_dot s : all_digits s = true -> PyStr.contains "."%char s = false.
Proof.
  induction s as [|c s IH]; cbn [all_digits PyStr.contains]; [reflexivity|].
  intros H. apply andb_prop in H as [Hc Hs]. apply andb_prop in Hc as [H1 H2].
  apply Nat.leb_le in H1. apply Nat.leb_le in H2.
  rewrite IH by exact Hs. rewrite Bool.orb_false_r.
  destruct (Ascii.eqb_spec "."%char c) as [<-|]; [cbn in H1; lia|reflexivity].
Qed.

(** No ['.'] followed by ['g'] inside [s]. *)
Fixpoint no_dot_g (s : string) : bool :=
  match s with
  | EmptyString => true
  | String c s' =>
      (negb (Ascii.eqb c ".") || match s' with
                                 | String d _ => negb (Ascii.eqb d "g")
                                 | EmptyString => true
                                 end) && no_dot_g s'
  end.

Lemma no_dot_g_app_nodot a b :
  PyStr.contains "."%char a = false -> no_dot_g (a ++ b) = no_dot_g b.
Proof.
  induction a as [|c a IH]; cbn [PyStr.contains no_dot_g String.append]; [reflexivity|].
  intros H. apply Bool.orb_false_elim in H as [H1 H2].
  rewrite IH by exact H2. rewrite Ascii.eqb_sym, H1. reflexivity.
Qed.

Lemma replace_gz_suffix x fuel :
  no_dot_g x = true -> String.length (x ++ ".gz") <= fuel ->
  PyStr.replace_fuel ".gz" "" fuel (x ++ ".gz") = x.
Proof.
  revert fuel. induction x as [|c x IH]; intros [|f] Hx Hf; cbn in Hf; try lia.
  - cbn. destruct f; reflexivity.
  - cbn [no_dot_g] in Hx. apply andb_prop in Hx as [Hc Hx].
    cbn [String.append]. rewrite replace_fuel_S.
    replace (String.prefix ".gz" (String c (x ++ ".gz"))) with false.
    + rewrite IH by (assumption || lia). reflexivity.
    + cbn [String.prefix]. destruct (ascii_dec "." c) as [<-|]; [|reflexivity].
      rewrite Ascii.eqb_refl in Hc. cbn [negb orb] in Hc.
      destruct x as [|d x']; cbn [String.append String.prefix].
      * destruct (ascii_dec "g" "."); [discriminate|reflexivity].
      * destruct (ascii_dec "g" d) as [<-|]; [|reflexivity].
        rewrite Ascii.eqb_refl in Hc. discriminate.
Qed.

Lemma last_char_split s : s <> "" -> exists a c, s = (a ++ String c "").
Proof.
  induction s as [|c s IH]; intros H; [congruence|].
  destruct s as [|d s]; [exists "", c; reflexivity|].
  destruct IH as [a [e He]]; [discriminate|]. exists (String c a), e. rewrite He. reflexivity.
Qed.

Lemma os_path_join_sep dir name :
  (forall a, dir <> (a ++ "/")) -> os_path_join dir name = (dir ++ "/" ++ name).
Proof.
  intros Hd. unfold os_path_join.
  destruct (String.eqb_spec (substring (String.length dir - 1) 1 dir) "/") as [E|]; [|reflexivity].
  exfalso. destruct (String.eqb_spec dir "") as [->|Hne]; [discriminate|].
  destruct (last_char_split dir Hne) as [a [c ->]].
  rewrite length_append in E. cbn [String.length] in E.
  replace (String.length a + 1 - 1) with (String.length a) in E by lia.
  rewrite substring_after in E by (cbn; lia). injection E as ->. exact (Hd a eq_refl).
Qed.

Lemma main_paths_l tmpdir today :
  PyStr.contains "."%char tmpdir = false -> (forall a, tmpdir <> (a ++ "/")) ->
  let gz_path := os_path_join tmpdir (snd (get_today_idx_url today)) in
  under_dir tmpdir gz_path = true
  /\ under_dir tmpdir (PyStr.replace ".gz" "" gz_path) = true.
Proof.
  intros Hdot Hsl. cbv zeta. rewrite os_path_join_sep by exact Hsl.
  unfold get_today_idx_url. cbn [snd]. unfold under_dir.
  split; [rewrite str_app_assoc; apply prefix_app|].
  set (x := (tmpdir ++ "/" ++ "master." ++ strftime_Ymd today ++ ".idx")).
  assert (Hx : (tmpdir ++ "/" ++ "master." ++ strftime_Ymd today ++ ".idx.gz") = (x ++ ".gz")).
  { unfold x. rewrite <- !str_app_assoc. reflexivity. }
  rewrite Hx. unfold PyStr.replace.
  rewrite replace_gz_suffix; [unfold x; rewrite str_app_assoc; apply prefix_app| |lia].
  unfold x. rewrite no_dot_g_app_nodot by exact Hdot.
  pose proof (strftime_digits today) as Hd.
  destruct (strftime_Ymd today) as [|d s] eqn:E; [reflexivity|].
  cbn [String.append no_dot_g]. cbn [all_digits] in Hd.
  apply andb_prop in Hd as [Hc Hs]. apply andb_prop in Hc as [H1 H2].
  apply Nat.leb_le in H1. apply Nat.leb_le in H2.
  rewrite no_dot_g_app_nodot by (apply digits_no_dot, Hs).
  destruct (Ascii.eqb_spec d "g") as [->|]; [cbn in H2; lia|].
  destruct (Ascii.eqb_spec d ".") as [->|]; [cbn in H1; lia|reflexivity].
Qed.

Definition FsFixed {A} (m : M A) : Prop :=
  forall en w, (snd (m en w)).(w_fs) = w.(w_fs).

(** [m] changes no local file outside [P]. *)
Definition WritesOnly (P : string -> Prop) {A} (m : M A) : Prop :=
  forall en w p, ~ P p -> fs_lookup p (snd (m en w)).(w_fs) = fs_lookup p w.(w_fs).

Definition LogP (q : string) : Prop := is_log_path q = true.

Lemma writes_bind P {A B} (m : M A) (k : A -> M B) :
  WritesOnly P m -> (forall a, WritesOnly P (k a)) -> WritesOnly P (bind m k).
Proof.
  intros Hm Hk en w p Hp. unfold bind. pose proof (Hm en w p Hp) as E1.
  destruct (m en w) as [[a|x] w1]; cbn in *; [rewrite (Hk a en w1 p Hp)|]; exact E1.
Qed.

Lemma writes_catch P {A} (m : M A) (h : py_exc -> M A) :
  WritesOnly P m -> (forall x, WritesOnly P (h x)) -> WritesOnly P (catch m h).
Proof.
  intros Hm Hh en w p Hp. unfold catch. pose proof (Hm en w p Hp) as E1.
  destruct (m en w) as [[a|x] w1]; cbn in *; [|rewrite (Hh x en w1 p Hp)]; exact E1.
Qed.

Lemma writes_fixed P {A} (m : M A) : FsFixed m -> WritesOnly P m.
Proof. intros H en w p _. rewrite H. reflexivity. Qed.

Lemma writes_weaken (P Q : string -> Prop) {A} (m : M A) :
  (forall p, P p -> Q p) -> WritesOnly P m -> WritesOnly Q m.
Proof. intros HPQ H en w p Hp. apply H. intros HP. apply Hp, HPQ, HP. Qed.

Lemma not_logp q : ~ LogP q -> is_log_path q = false.
Proof. unfold LogP. destruct (is_log_path q); [contradiction|reflexivity]. Qed.

Lemma log_record_writes lvl msg b : WritesOnly LogP (log_record lvl msg b).
Proof.
  intros en w p Hp. rewrite log_record_world. cbn [w_fs].
  apply handler_emit_other, not_logp, Hp.
Qed.

Lemma log_writes lvl msg : WritesOnly LogP (log lvl msg).
Proof. apply log_record_writes. Qed.

Lemma parse_idx_fs p : FsFixed (parse_idx p).
Proof. intros en [fs store t tr]. unfold parse_idx. run; reflexivity. Qed.

Lemma insert_unique_writes f : WritesOnly LogP (insert_unique f).
Proof.
  intros [today tmp arch fetch clock up serr asct tb] [fs store t tr] p Hp.
  unfold insert_unique, fetch_filing_text. run; cbn [w_fs];
    first [reflexivity | apply handler_emit_other, not_logp, Hp].
Qed.

Lemma insert_all_writes l n : WritesOnly LogP (insert_all l n).
Proof.
  revert n. induction l as [|f l IH]; intros n; cbn [insert_all].
  - apply writes_fixed. intros en w. reflexivity.
  - apply writes_bind; [apply insert_unique_writes|intros r; apply IH].
Qed.

Lemma download_gz_writes url dest :
  WritesOnly (fun q => q = dest \/ LogP q) (download_gz url dest).
Proof.
  intros en w p Hp.
  assert (Hq : is_log_path p = false) by (apply not_logp; intros H; apply Hp; right; exact H).
  pose proof (download_gz_file_effect_l url dest en w p Hq) as H.
  destruct (download_gz url dest en w) as [r w'].
  cbn [snd]. destruct (String.eqb_spec p dest) as [->|Hne]; [exfalso; apply Hp; left; reflexivity|].
  destruct (e_archive en (w_tick w) url) as [m|s b|s b m];
    [|destruct (Z.eqb s 200)..]; destruct H as [_ H]; exact H.
Qed.

Lemma decompress_gz_writes src dest : WritesOnly (eq dest) (decompress_gz src dest).
Proof.
  intros en w p Hp. pose proof (decompress_gz_cases_l src dest en w p) as Hd.
  destruct (decompress_gz src dest en w) as [r w'].
  destruct (String.eqb_spec p dest) as [->|_]; [congruence|].
  cbn [snd]. destruct (fs_lookup src (w_fs w)) as [d|];
    destruct Hd as [_ Hd]; rewrite ?Hd; reflexivity.
Qed.

Lemma fs_lookup_filter_outside dir p fs :
  under_dir dir p = false ->
  fs_lookup p (filter (fun e => negb (under_dir dir (fst e))) fs) = fs_lookup p fs.
Proof.
  intros Hp. induction fs as [|[q d] rest IH]; cbn -[under_dir]; [reflexivity|].
  destruct (under_dir dir q) eqn:Hq; cbn -[under_dir].
  - destruct (String.eqb_spec p q) as [->|]; [congruence|exact IH].
  - destruct (String.eqb p q); [reflexivity|exact IH].
Qed.

(** When the temporary directory's path holds no ['.'] (a ['.gz']
    in it would be removed from [idx_path] too, which would then name a
    file outside the directory) and does not end in ['/'], a run of
    [main] leaves every local file outside that directory as it was,
    whatever happens during the run, except the log file
    [edgar_ingest.log] and its backups [.1] to [.3], which the logger
    appends to and rotates. *)
Theorem main_keeps_files_outside_tmpdir (en : env) (w : world) (p : string)
  (Hdot : PyStr.contains "."%char en.(e_tmpdir) = false)
  (Hsl : forall a, en.(e_tmpdir) <> (a ++ "/"))
  (Hp : under_dir en.(e_tmpdir) p = false)
  (Hlog : is_log_path p = false) :
  fs_lookup p (snd (main en w)).(w_fs) = fs_lookup p w.(w_fs).
Proof.
  destruct (get_today_idx_url (e_today en)) as [url fname] eqn:Eg.
  destruct (main_paths_l (e_tmpdir en) (e_today en) Hdot Hsl) as [Hgz Hidx].
  rewrite Eg in Hgz, Hidx. cbn [snd] in Hgz, Hidx.
  set (gz := os_path_join (e_tmpdir en) fname) in *.
  set (idx := PyStr.replace ".gz" "" gz) in *.
  set (P := fun q => q = gz \/ q = idx \/ LogP q).
  assert (Hbody : forall k : list filing -> M unit,
            (forall l, WritesOnly LogP (k l)) ->
            WritesOnly P (download_gz url gz;;; decompress_gz gz idx;;; l <- parse_idx idx;; k l)).
  { intros k Hk.
    apply writes_bind; [eapply writes_weaken; [|apply download_gz_writes];
                        intros q [<-|Hq]; [left|right; right]; auto|].
    intros _. apply writes_bind; [eapply writes_weaken; [|apply decompress_gz_writes];
                                  intros q <-; right; left; reflexivity|].
    intros _. apply writes_bind; [apply writes_fixed, parse_idx_fs|].
    intros l. eapply writes_weaken; [|apply Hk]. intros q Hq; right; right; exact Hq. }
  assert (Hk : forall l : list filing, WritesOnly LogP
            (log INFO ("Parsed " ++ PyStr.str_nat (length l) ++ " filings");;;
             new_count <- insert_all l 0;;
             log INFO ("Inserted " ++ PyStr.str_nat new_count ++ " new filings into MongoDB"))).
  { intros l. apply writes_bind; [apply log_writes|intros _].
    apply writes_bind; [apply insert_all_writes|intros n; apply log_writes]. }
  assert (Hnp : ~ P p).
  { intros [-> | [-> | Hl]]; [congruence|congruence|unfold LogP in Hl; congruence]. }
  remember (main en w) as R eqn:HR.
  unfold main, catch, pipeline in HR. unfold bind at 1 in HR. unfold ask in HR. rewrite Eg in HR.
  unfold with_tmpdir in HR. cbn [emit] in HR. fold gz idx in HR.
  match type of HR with
  | context [bind (download_gz url gz) ?k0 en ?w1] =>
      pose proof (Hbody _ Hk en w1 p Hnp) as Hb;
      destruct (bind (download_gz url gz) k0 en w1) as [r w2]
  end.
  cbn [snd w_fs] in Hb.
  assert (Hw : fs_lookup p (filter (fun e => negb (under_dir (e_tmpdir en) (fst e))) (w_fs w2))
               = fs_lookup p (w_fs w)).
  { rewrite fs_lookup_filter_outside by exact Hp. exact Hb. }
  subst R. destruct r as [a|x]; cbn [snd w_fs]; [exact Hw|].
  rewrite log_record_world. cbn [w_fs]. rewrite handler_emit_other by exact Hlog. exact Hw.
Qed.

Lemma main_keeps_files_outside_tmpdir_witness :
  PyStr.contains "."%char (sample_env 200).(e_tmpdir) = false
  /\ (forall a, (sample_env 200).(e_tmpdir) <> (a ++ "/"))
  /\ under_dir (sample_env 200).(e_tmpdir) "/home/u/notes.txt" = false
  /\ is_log_path "/home/u/notes.txt" = false
  /\ fs_lookup "/home/u/notes.txt"
       (snd (main (sample_env 200) (mkWorld [("/home/u/notes.txt", FileText ["x"])] [] 0 []))).(w_fs)
     = Some (FileText ["x"]).
Proof.
  assert (Hdot : PyStr.contains "."%char (sample_env 200).(e_tmpdir) = false) by reflexivity.
  assert (Hsl : forall a, (sample_env 200).(e_tmpdir) <> (a ++ "/")).
  { intros a H. apply (f_equal (fun s => substring (String.length s - 1) 1 s)) in H.
    rewrite length_append in H. cbn [String.length] in H.
    replace (String.length a + 1 - 1) with (String.length a) in H by lia.
    rewrite substring_after in H by (cbn; lia). discriminate H. }
  assert (Hp : under_dir (sample_env 200).(e_tmpdir) "/home/u/notes.txt" = false) by reflexivity.
  assert (Hlog : is_log_path "/home/u/notes.txt" = false) by reflexivity.
  split; [exact Hdot|split; [exact Hsl|split; [exact Hp|split; [exact Hlog|]]]].
  exact (main_keeps_files_outside_tmpdir (sample_env 200)
           (mkWorld [("/home/u/notes.txt", FileText ["x"])] [] 0 []) _ Hdot Hsl Hp Hlog).
Defined.


(* ------------------------------------------------------------------ *)
(** ** The rotating log file *)











